(** * Todo API: the store accessor and the request handlers of
      [todo-app/backend/app.js], embedded as Rocq functions.

    The handlers are "load the whole list, scan it, mutate, write the whole
    list back".  The embedding keeps that shape: a handler is a function from
    the state of the data file to a response and the next state of the file,
    written in a small state-and-exception monad so that each definition can
    be read next to the JavaScript it comes from.

    The request body is the object [express.json()] parsed (an array body has
    none of the properties the handlers read and behaves as the empty
    object).  What the handlers print is not kept, but the [console.log]
    calls are: they run unless [NODE_ENV] is "test", and a template literal
    in them converts its values to strings, which can throw. *)

From Stdlib Require Import ZArith Lia Bool Ascii String.
From Stdlib Require Import DecimalString DecimalPos DecimalZ.
From stdpp Require Import base option list.

Local Open Scope string_scope.
Local Open Scope list_scope.
Set Warnings "-register-all".

(** ** JavaScript values that travel through the handlers *)

(** What [JSON.parse] can return.  [undefined] is not a JSON value: a missing
    property is [None] at type [option Json].  A number is only ever tested
    for truthiness by the handlers, integers stand for the doubles. *)
Inductive Json : Type :=
| JNull
| JBool (b : bool)
| JNum (n : Z)
| JStr (s : string)
| JArr (items : list Json)
| JObj (fields : list (string * Json)).

(** An object is its own properties in insertion order (JavaScript lists
    integer-like names first; the handlers set no such name). *)
Definition Obj : Type := list (string * Json).

(** [o.k] for an own property; [None] is [undefined]. *)
Fixpoint getProp (o : Obj) (k : string) : option Json :=
  match o with
  | [] => None
  | (k', v) :: rest => if String.eqb k' k then Some v else getProp rest k
  end.

(** [o.k = v]: an existing property keeps its place, a new one goes last. *)
Fixpoint setProp (o : Obj) (k : string) (v : Json) : Obj :=
  match o with
  | [] => [(k, v)]
  | (k', v') :: rest =>
      if String.eqb k' k then (k', v) :: rest else (k', v') :: setProp rest k v
  end.

(** The names of an object are distinct. *)
Fixpoint distinct (keys : list string) : bool :=
  match keys with
  | [] => true
  | k :: rest => negb (existsb (String.eqb k) rest) && distinct rest
  end.

(** A value as [JSON.parse] builds it: no object has a name twice. *)
Fixpoint well_formed (v : Json) : bool :=
  match v with
  | JArr items => forallb well_formed items
  | JObj fields =>
      distinct (List.map fst fields)
      && forallb (fun kv => well_formed (snd kv)) fields
  | _ => true
  end.

(** ** Strings: [String.prototype.trim]

    A Rocq string is the UTF-8 text of the JavaScript string.  [trim] strips
    the white space and line terminators of ECMAScript: U+0009 to U+000D,
    U+0020, U+00A0, U+1680, U+2000 to U+200A, U+2028, U+2029, U+202F, U+205F,
    U+3000 and U+FEFF. *)

(** The number of bytes of the white space character that [s] starts with,
    [0] when it starts with none. *)
Definition white_len (s : string) : nat :=
  match s with
  | EmptyString => 0
  | String c rest =>
      let n := nat_of_ascii c in
      if ((9 <=? n) && (n <=? 13) || (n =? 32))%nat then 1
      else
        match rest with
        | String c1 rest1 =>
            let n1 := nat_of_ascii c1 in
            if ((n =? 194) && (n1 =? 160))%nat then 2            (* U+00A0 *)
            else
              match rest1 with
              | String c2 _ =>
                  let n2 := nat_of_ascii c2 in
                  if ((n =? 225) && (n1 =? 154) && (n2 =? 128)       (* U+1680 *)
                      || (n =? 226) && (n1 =? 128)
                         && ((128 <=? n2) && (n2 <=? 138)            (* U+2000.. *)
                             || (n2 =? 168) || (n2 =? 169)           (* U+2028/9 *)
                             || (n2 =? 175))                         (* U+202F *)
                      || (n =? 226) && (n1 =? 129) && (n2 =? 159)    (* U+205F *)
                      || (n =? 227) && (n1 =? 128) && (n2 =? 128)    (* U+3000 *)
                      || (n =? 239) && (n1 =? 187) && (n2 =? 191))%nat (* U+FEFF *)
                  then 3 else 0
              | EmptyString => 0
              end
        | EmptyString => 0
        end
  end.

Fixpoint trimStart (s : string) : string :=
  match white_len s, s with
  | 1, String _ rest => trimStart rest
  | 2, String _ (String _ rest) => trimStart rest
  | 3, String _ (String _ (String _ rest)) => trimStart rest
  | _, _ => s
  end.

(** Every character is white space. *)
Fixpoint blank (s : string) : bool :=
  match s with
  | EmptyString => true
  | _ =>
      match white_len s, s with
      | 1, String _ rest => blank rest
      | 2, String _ (String _ rest) => blank rest
      | 3, String _ (String _ (String _ rest)) => blank rest
      | _, _ => false
      end
  end.

(** What is left once the white space at the end is gone: nothing of a
    blank string, and otherwise the first byte and what is left of the rest
    (a white space character never begins inside another character). *)
Fixpoint trimEnd (s : string) : string :=
  match s with
  | EmptyString => EmptyString
  | String c rest => if blank s then EmptyString else String c (trimEnd rest)
  end.

Definition trim (s : string) : string := trimEnd (trimStart s).

(** ** Exceptions *)

Inductive Exn : Type :=
| TypeError (msg : string)
| SyntaxError
| IOError (code : string).

Inductive Outcome (A : Type) : Type :=
| Ret (a : A)
| Throw (e : Exn).
Arguments Ret {A} a.
Arguments Throw {A} e.

(** JavaScript truthiness of [text] in [!text]. *)
Definition truthy (v : option Json) : bool :=
  match v with
  | None => false
  | Some JNull => false
  | Some (JBool b) => b
  | Some (JNum n) => negb (n =? 0)%Z
  | Some (JStr s) => negb (String.eqb s "")
  | Some (JArr _) => true
  | Some (JObj _) => true
  end.

(** [text.trim()]: only a string has a callable [trim]; on every other value
    the call throws a [TypeError] ([trim] is [undefined] on numbers, booleans
    and arrays, an own [trim] property of a parsed object is never a function,
    and [null] and [undefined] have no properties at all). *)
Definition call_trim (v : option Json) : Outcome string :=
  match v with
  | Some (JStr s) => Ret (trim s)
  | Some JNull | None => Throw (TypeError "Cannot read properties")
  | Some _ => Throw (TypeError "text.trim is not a function")
  end.

(** [String(v)] as a template literal computes it.  An object is printed by
    [Object.prototype.toString] unless it has a [toString] of its own, which
    after [JSON.parse] is never a function: the conversion then throws.  An
    array prints its elements, [null] as nothing. *)
Fixpoint printable (v : Json) : bool :=
  match v with
  | JObj fields =>
      match getProp fields "toString" with
      | Some _ => false
      | None => true
      end
  | JArr items => forallb printable items
  | _ => true
  end.

(** [`${v}`]; [undefined] prints as "undefined". *)
Definition interpolate (v : option Json) : Outcome unit :=
  match v with
  | Some v =>
      if printable v then Ret tt
      else Throw (TypeError "Cannot convert object to primitive value")
  | None => Ret tt
  end.

(** [todo.id] inside the [findIndex] callback.  [null] has no properties; a
    number, a boolean, a string or an array has no [id]. *)
Definition todo_id (todo : Json) : Outcome (option Json) :=
  match todo with
  | JNull => Throw (TypeError "Cannot read properties of null")
  | JObj o => Ret (getProp o "id")
  | _ => Ret None
  end.

(** [todo.id === id] with [id] a string (a route parameter). *)
Definition has_id (id : string) (todo : Json) : Outcome bool :=
  match todo_id todo with
  | Throw e => Throw e
  | Ret (Some (JStr s)) => Ret (String.eqb s id)
  | Ret _ => Ret false
  end.

(** [todos.findIndex(p)]; [None] is the [-1] of JavaScript. *)
Fixpoint findIndex (p : Json -> Outcome bool) (todos : list Json)
  : Outcome (option nat) :=
  match todos with
  | [] => Ret None
  | todo :: rest =>
      match p todo with
      | Throw e => Throw e
      | Ret true => Ret (Some 0)
      | Ret false =>
          match findIndex p rest with
          | Throw e => Throw e
          | Ret i => Ret (S <$> i)
          end
      end
  end.

(** The receiver of [todos.findIndex], [todos.push] and [todos.splice]: the
    method exists on arrays only. *)
Definition as_array (todos : Json) : Outcome (list Json) :=
  match todos with
  | JArr items => Ret items
  | _ => Throw (TypeError "not a function")
  end.

(** [todos[i].k = v].  The element is an object whenever [i] comes from
    [findIndex]; the other cases are what JavaScript does all the same: an
    exception on [null] and [undefined], nothing that serialisation can see
    on a primitive or an array. *)
Definition assign (todos : list Json) (i : nat) (k : string) (v : Json)
  : Outcome (list Json) :=
  match todos !! i with
  | Some (JObj o) => Ret (<[i := JObj (setProp o k v)]> todos)
  | Some JNull | None => Throw (TypeError "Cannot set properties")
  | Some _ => Ret todos
  end.

(** [`${todos[i].k}`] *)
Definition interpolate_prop (todos : list Json) (i : nat) (k : string)
  : Outcome unit :=
  match todos !! i with
  | Some (JObj o) => interpolate (getProp o k)
  | Some JNull | None => Throw (TypeError "Cannot read properties")
  | Some _ => Ret tt
  end.

(** ** The data file *)

(** [data.json] as the handlers can observe it: its text when it exists, and
    whether the process may read and write it.  A refused write happens when
    the file is opened, so it leaves the file as it was. *)
Record FS : Type := mkFS {
  contents : option string;
  readable : bool;
  writable : bool
}.

(** [fs.readFile(DATA_FILE, "utf8")] *)
Definition readFile (fs : FS) : Outcome string :=
  match contents fs with
  | None => Throw (IOError "ENOENT")
  | Some data => if readable fs then Ret data else Throw (IOError "EACCES")
  end.

(** [fs.writeFile(DATA_FILE, data)] *)
Definition writeFile (data : string) (fs : FS) : Outcome unit * FS :=
  if writable fs
  then (Ret tt, mkFS (Some data) (readable fs) true)
  else (Throw (IOError "EACCES"), fs).

(** ** The monad of [async] code: the file is threaded, an exception stops *)

Definition Async (A : Type) : Type := FS -> Outcome A * FS.

Definition ret {A} (a : A) : Async A := fun fs => (Ret a, fs).

Definition bind {A B} (m : Async A) (k : A -> Async B) : Async B :=
  fun fs =>
    match m fs with
    | (Ret a, fs') => k a fs'
    | (Throw e, fs') => (Throw e, fs')
    end.

Definition lift {A} (o : Outcome A) : Async A := fun fs => (o, fs).

Notation "'do' x <- m ; k" := (bind m (fun x => k))
  (at level 10, x name, m at level 100, k at level 200).

(** ** Responses *)

Record Response : Type := respond { status : nat; body : Json }.

Definition error_body (msg : string) : Json := JObj [("error", JStr msg)].

(** [try { ... } catch (error) { res.status(500).json({ error: msg }) }] *)
Definition try_catch (m : Async Response) (msg : string) : Async Response :=
  fun fs =>
    match m fs with
    | (Ret r, fs') => (Ret r, fs')
    | (Throw _, fs') => (Ret (respond 500 (error_body msg)), fs')
    end.

(** ** The environment of one request: clock, random source, logging *)

Record Env : Type := mkEnv {
  Date_now : Z;            (* Date.now() *)
  random36 : string;       (* Math.random().toString(36).substr(2, 9) *)
  toISOString : string;    (* new Date().toISOString() *)
  logging : bool           (* process.env.NODE_ENV !== "test" *)
}.

(** [if (process.env.NODE_ENV !== "test") { console.log(message) }] *)
Definition log (env : Env) (message : Outcome unit) : Async unit :=
  if logging env then lift message else ret tt.

(** [Date.now().toString()]: a millisecond count prints as a decimal integer. *)
Definition toString (ms : Z) : string := NilZero.string_of_int (Z.to_int ms).

(** [generateId] *)
Definition generateId (env : Env) : string :=
  (toString (Date_now env) ++ random36 env)%string.

(** ** [JSON.parse] and [JSON.stringify(_, null, 2)]

    These belong to the platform.  The handlers are defined and verified for
    every codec; [None] is the [SyntaxError] of [JSON.parse]. *)
Class Codec : Type := {
  JSON_parse : string -> option Json;
  JSON_stringify : Json -> string
}.

(** What the handlers rely on when they read back what they wrote:
    [JSON.parse] returns well-formed values, and it reads a well-formed value
    back from the text [JSON.stringify] printed for it. *)
Class CodecLaws `{Codec} : Prop := {
  JSON_parse_well_formed :
    forall data v, JSON_parse data = Some v -> well_formed v = true;
  JSON_parse_stringify :
    forall v, well_formed v = true -> JSON_parse (JSON_stringify v) = Some v
}.

Section App.

Context `{Codec}.

(** [readTodos]: anything that goes wrong yields the empty array. *)
Definition readTodos : Async Json :=
  fun fs =>
    match readFile fs with
    | Ret data =>
        match JSON_parse data with
        | Some todos => (Ret todos, fs)
        | None => (Ret (JArr []), fs)
        end
    | Throw _ => (Ret (JArr []), fs)
    end.

(** [writeTodos]: the error is thrown again after it is logged. *)
Definition writeTodos (todos : Json) : Async unit :=
  writeFile (JSON_stringify todos).

(** [GET /api/todos].  The log line reads [todos.length]. *)
Definition get_todos (env : Env) : Async Response :=
  try_catch
    (do todos <- readTodos;
     do _ <- log env (match todos with
                      | JNull => Throw (TypeError "Cannot read properties of null")
                      | JObj o => interpolate (getProp o "length")
                      | _ => Ret tt
                      end);
     ret (respond 200 todos))
    "Failed to fetch todos".

(** [POST /api/todos].  The first [console.log] of the text stands before
    the [try]: when it throws, the handler's promise is rejected and this
    code sends no response ([Throw]). *)
Definition post_todos (env : Env) (req_body : Obj) : Async Response :=
  do _ <- log env (interpolate (getProp req_body "text"));
  try_catch
    (let text := getProp req_body "text" in
     (* if (!text || text.trim() is the empty string) *)
     do rejected <- (if negb (truthy text) then ret true
                     else do t <- lift (call_trim text); ret (String.eqb t ""));
     if rejected then ret (respond 400 (error_body "Todo text is required"))
     else
       do todos <- readTodos;
       let id := generateId env in
       do t <- lift (call_trim text);
       let newTodo := JObj [("id", JStr id); ("text", JStr t);
                            ("completed", JBool false);
                            ("createdAt", JStr (toISOString env))] in
       (* todos.push(newTodo) *)
       do items <- lift (as_array todos);
       do _ <- writeTodos (JArr (items ++ [newTodo]));
       ret (respond 201 newTodo))
    "Failed to create todo".

(** [PUT /api/todos/:id].  The first step of the update either answers 400
    ([inl]) or hands on the array with the text applied ([inr]). *)
Definition put_todo (env : Env) (id : string) (req_body : Obj)
  : Async Response :=
  try_catch
    (let text := getProp req_body "text" in
     let completed := getProp req_body "completed" in
     do todos <- readTodos;
     do items <- lift (as_array todos);
     do todoIndex <- lift (findIndex (has_id id) items);
     match todoIndex with
     | None => ret (respond 404 (error_body "Todo not found"))
     | Some i =>
         do step <- (match text with
                     | None => ret (inr items)
                     | Some _ =>
                         do t <- lift (call_trim text);
                         if String.eqb t ""
                         then ret (inl (respond 400
                                          (error_body "Todo text cannot be empty")))
                         else
                           do _ <- log env (interpolate_prop items i "text");
                           do t' <- lift (call_trim text);
                           do items1 <- lift (assign items i "text" (JStr t'));
                           ret (inr items1)
                     end);
         match step with
         | inl rejected => ret rejected
         | inr items1 =>
             do items2 <- (match completed with
                           | None => ret items1
                           | Some c =>
                               do _ <- log env (interpolate_prop items1 i
                                                  "completed");
                               do _ <- log env (interpolate completed);
                               lift (assign items1 i "completed" c)
                           end);
             do items3 <- lift (assign items2 i "updatedAt"
                                  (JStr (toISOString env)));
             do _ <- writeTodos (JArr items3);
             (* res.json(todos[todoIndex]) *)
             ret (respond 200 (default JNull (items3 !! i)))
         end
     end)
    "Failed to update todo".

(** [DELETE /api/todos/:id].  [todos.splice(todoIndex, 1)[0]] is the removed
    element; a property whose value is [undefined] is left out of a JSON
    body. *)
Definition delete_todo (id : string) : Async Response :=
  try_catch
    (do todos <- readTodos;
     do items <- lift (as_array todos);
     do todoIndex <- lift (findIndex (has_id id) items);
     match todoIndex with
     | None => ret (respond 404 (error_body "Todo not found"))
     | Some i =>
         let deletedTodo := items !! i in
         do _ <- writeTodos (JArr (delete i items));
         ret (respond 200
                (JObj (("message", JStr "Todo deleted successfully")
                       :: match deletedTodo with
                          | Some d => [("todo", d)]
                          | None => []
                          end)))
     end)
    "Failed to delete todo".

End App.

(** ** An executable codec

    The text that [JSON.stringify(_, null, 2)] prints and [JSON.parse] reads,
    for the values of [Json]: integers for numbers, UTF-8 text for strings
    (a surrogate escape is rejected).  It instantiates [Codec] wherever a
    statement is evaluated on a document, such as the fixtures of the
    test-suite, and it satisfies [CodecLaws]. *)
Module JsonText.

Local Open Scope string_scope.

Definition chr (n : nat) : string := String (ascii_of_nat n) EmptyString.
Definition quote : string := chr 34.
Definition backslash : string := chr 92.
Definition newline : string := chr 10.

Definition hex_digit (n : nat) : string :=
  chr (if (n <? 10)%nat then 48 + n else 87 + n).

(** One byte inside a string literal. *)
Definition escape_char (c : ascii) : string :=
  let n := nat_of_ascii c in
  if (n =? 34)%nat then backslash ++ quote
  else if (n =? 92)%nat then backslash ++ backslash
  else if (n =? 8)%nat then backslash ++ "b"
  else if (n =? 9)%nat then backslash ++ "t"
  else if (n =? 10)%nat then backslash ++ "n"
  else if (n =? 12)%nat then backslash ++ "f"
  else if (n =? 13)%nat then backslash ++ "r"
  else if (n <? 32)%nat
       then backslash ++ "u00" ++ hex_digit (n / 16) ++ hex_digit (n mod 16)
  else String c EmptyString.

Fixpoint escape (s : string) : string :=
  match s with
  | EmptyString => EmptyString
  | String c rest => escape_char c ++ escape rest
  end.

Definition print_string (s : string) : string := quote ++ escape s ++ quote.

Fixpoint spaces (n : nat) : string :=
  match n with
  | O => EmptyString
  | S m => " " ++ spaces m
  end.

(** [sep] is the line break and indentation between two members. *)
Fixpoint join (sep : string) (parts : list string) : string :=
  match parts with
  | [] => EmptyString
  | [x] => x
  | x :: rest => x ++ "," ++ sep ++ join sep rest
  end.

Fixpoint print (depth : nat) (v : Json) : string :=
  match v with
  | JNull => "null"
  | JBool true => "true"
  | JBool false => "false"
  | JNum n => toString n
  | JStr s => print_string s
  | JArr [] => "[]"
  | JArr items =>
      let inner := newline ++ spaces (depth + 2) in
      "[" ++ inner ++ join inner (List.map (print (depth + 2)) items)
          ++ newline ++ spaces depth ++ "]"
  | JObj [] => "{}"
  | JObj fields =>
      let inner := newline ++ spaces (depth + 2) in
      "{" ++ inner
          ++ join inner
               (List.map (fun kv => print_string (fst kv) ++ ": "
                                      ++ print (depth + 2) (snd kv)) fields)
          ++ newline ++ spaces depth ++ "}"
  end.

Definition stringify (v : Json) : string := print 0 v.

Definition is_ws (c : ascii) : bool :=
  let n := nat_of_ascii c in
  (n =? 32)%nat || (n =? 9)%nat || (n =? 10)%nat || (n =? 13)%nat.

Fixpoint skip_ws (s : string) : string :=
  match s with
  | EmptyString => EmptyString
  | String c rest => if is_ws c then skip_ws rest else s
  end.

Definition hex_of (c : ascii) : option nat :=
  let n := nat_of_ascii c in
  if ((48 <=? n) && (n <=? 57))%nat then Some (n - 48)
  else if ((97 <=? n) && (n <=? 102))%nat then Some (n - 87)
  else if ((65 <=? n) && (n <=? 70))%nat then Some (n - 55)
  else None.

(** The UTF-8 bytes of a code point of the basic plane; a surrogate has
    none. *)
Definition utf8 (n : N) : option string :=
  let byte (k : N) := String (ascii_of_N k) EmptyString in
  if (n <? 128)%N then Some (byte n)
  else if (n <? 2048)%N
       then Some (byte (192 + n / 64) ++ byte (128 + n mod 64))%N
  else if ((55296 <=? n) && (n <? 57344))%N then None
  else Some (byte (224 + n / 4096) ++ byte (128 + (n / 64) mod 64)
               ++ byte (128 + n mod 64))%N.

(** A character of an integer literal. *)
Definition is_num_char (c : ascii) : bool :=
  let n := nat_of_ascii c in
  ((48 <=? n) && (n <=? 57))%nat || (n =? 45)%nat.

(** The longest run of such characters at the front, and what follows. *)
Fixpoint span_num (s : string) : string * string :=
  match s with
  | EmptyString => (EmptyString, EmptyString)
  | String c rest =>
      if is_num_char c
      then let '(tok, rest') := span_num rest in (String c tok, rest')
      else (EmptyString, s)
  end.

(** A fraction or an exponent is outside [Json]. *)
Definition integral (rest : string) : bool :=
  match rest with
  | String c _ =>
      let n := nat_of_ascii c in
      negb ((n =? 46)%nat || (n =? 101)%nat || (n =? 69)%nat || (n =? 43)%nat)
  | EmptyString => true
  end.

(** An integer literal is the decimal form [toString] prints, or [-0]. *)
Definition parse_number (s : string) : option (Z * string) :=
  let '(tok, rest) := span_num s in
  if integral rest then
    match NilZero.int_of_string tok with
    | Some i =>
        let z := Z.of_int i in
        if String.eqb (toString z) tok || String.eqb tok "-0"
        then Some (z, rest) else None
    | None => None
    end
  else None.

(** The characters of a string literal after its opening quote. *)
Fixpoint parse_chars (s : string) : option (string * string) :=
  match s with
  | EmptyString => None
  | String c rest =>
      let n := nat_of_ascii c in
      if (n =? 34)%nat then Some (EmptyString, rest)
      else if (n =? 92)%nat then
        match rest with
        | String e rest' =>
            let plain (code : nat) :=
              match parse_chars rest' with
              | Some (str, r) => Some (String (ascii_of_nat code) str, r)
              | None => None
              end in
            match e with
            | "b"%char => plain 8
            | "t"%char => plain 9
            | "n"%char => plain 10
            | "f"%char => plain 12
            | "r"%char => plain 13
            | "/"%char => plain 47
            | "u"%char =>
                match rest' with
                | String h1 (String h2 (String h3 (String h4 rest''))) =>
                    match hex_of h1, hex_of h2, hex_of h3, hex_of h4 with
                    | Some a, Some b, Some c, Some d =>
                        match utf8 (4096 * N.of_nat a + 256 * N.of_nat b
                                    + 16 * N.of_nat c + N.of_nat d)%N,
                              parse_chars rest'' with
                        | Some bytes, Some (str, r) => Some (bytes ++ str, r)
                        | _, _ => None
                        end
                    | _, _, _, _ => None
                    end
                | _ => None
                end
            | _ =>
                let m := nat_of_ascii e in
                if ((m =? 34) || (m =? 92))%nat then plain m else None
            end
        | EmptyString => None
        end
      else if (n <? 32)%nat then None
      else
        match parse_chars rest with
        | Some (str, r) => Some (String c str, r)
        | None => None
        end
  end.

(** [s] without the [word] it starts with. *)
Fixpoint strip (word s : string) : option string :=
  match word with
  | EmptyString => Some s
  | String a word' =>
      match s with
      | String b rest => if Ascii.eqb a b then strip word' rest else None
      | EmptyString => None
      end
  end.

Definition expect (word : string) (v : Json) (s : string)
  : option (Json * string) :=
  match strip word s with
  | Some rest => Some (v, rest)
  | None => None
  end.

(** What the first character of a value announces. *)
Inductive Kind : Type :=
| KNull | KTrue | KFalse | KString | KArray | KObject | KNumber.

Definition kind_of (c : ascii) : Kind :=
  let n := nat_of_ascii c in
  if (n =? 110)%nat then KNull
  else if (n =? 116)%nat then KTrue
  else if (n =? 102)%nat then KFalse
  else if (n =? 34)%nat then KString
  else if (n =? 91)%nat then KArray
  else if (n =? 123)%nat then KObject
  else KNumber.

(** [s] without the character [c] it starts with. *)
Definition starts (c : ascii) (s : string) : option string :=
  match s with
  | String c' rest => if Ascii.eqb c' c then Some rest else None
  | EmptyString => None
  end.

(** Recursive descent; [fuel] bounds the depth of the calls. *)
Fixpoint parse_value (fuel : nat) (s : string) : option (Json * string) :=
  match fuel with
  | O => None
  | S fuel' =>
      match skip_ws s with
      | EmptyString => None
      | String c rest as s' =>
          match kind_of c with
          | KNull => expect "null" JNull s'
          | KTrue => expect "true" (JBool true) s'
          | KFalse => expect "false" (JBool false) s'
          | KString =>
              match parse_chars rest with
              | Some (str, r) => Some (JStr str, r)
              | None => None
              end
          | KArray =>
              match starts "]" (skip_ws rest) with
              | Some r => Some (JArr [], r)
              | None =>
                  match parse_items fuel' rest with
                  | Some (items, r) => Some (JArr items, r)
                  | None => None
                  end
              end
          | KObject =>
              match starts "}" (skip_ws rest) with
              | Some r => Some (JObj [], r)
              | None =>
                  match parse_fields fuel' [] rest with
                  | Some (fields, r) => Some (JObj fields, r)
                  | None => None
                  end
              end
          | KNumber =>
              match parse_number s' with
              | Some (z, r) => Some (JNum z, r)
              | None => None
              end
          end
      end
  end
with parse_items (fuel : nat) (s : string) : option (list Json * string) :=
  match fuel with
  | O => None
  | S fuel' =>
      match parse_value fuel' s with
      | Some (v, r) =>
          match starts "," (skip_ws r) with
          | Some r' =>
              match parse_items fuel' r' with
              | Some (vs, r'') => Some (v :: vs, r'')
              | None => None
              end
          | None =>
              match starts "]" (skip_ws r) with
              | Some r' => Some ([v], r')
              | None => None
              end
          end
      | None => None
      end
  end
with parse_fields (fuel : nat) (acc : Obj) (s : string)
  : option (Obj * string) :=
  match fuel with
  | O => None
  | S fuel' =>
      match starts (ascii_of_nat 34) (skip_ws s) with
      | Some r0 =>
          match parse_chars r0 with
          | Some (k, r1) =>
              match starts ":" (skip_ws r1) with
              | Some r2 =>
                  match parse_value fuel' r2 with
                  | Some (v, r3) =>
                      (* a repeated name keeps its place, the last value *)
                      let acc' := setProp acc k v in
                      match starts "," (skip_ws r3) with
                      | Some r4 => parse_fields fuel' acc' r4
                      | None =>
                          match starts "}" (skip_ws r3) with
                          | Some r4 => Some (acc', r4)
                          | None => None
                          end
                      end
                  | None => None
                  end
              | None => None
              end
          | None => None
          end
      | None => None
      end
  end.

Definition parse (s : string) : option Json :=
  match parse_value (2 * String.length s + 2) s with
  | Some (v, r) =>
      match skip_ws r with
      | EmptyString => Some v
      | _ => None
      end
  | None => None
  end.

#[export] Instance codec : Codec :=
  {| JSON_parse := parse; JSON_stringify := stringify |}.

(** *** Measures and shapes the proofs about the codec speak of *)

(** The fuel that parsing the text of a value takes at most. *)
Fixpoint size (v : Json) : nat :=
  match v with
  | JArr items => S (list_sum (List.map (fun x => S (size x)) items))
  | JObj fields => S (list_sum (List.map (fun kv => S (size (snd kv))) fields))
  | _ => 1
  end.

Definition weight_items (items : list Json) : nat :=
  list_sum (List.map (fun x => S (size x)) items).

Definition weight_fields (fields : Obj) : nat :=
  list_sum (List.map (fun kv => S (size (snd kv))) fields).

Fixpoint all_chars (p : ascii -> bool) (s : string) : bool :=
  match s with
  | EmptyString => true
  | String c rest => p c && all_chars p rest
  end.

(** What may follow a value in a text: nothing that would make an integer
    literal longer. *)
Definition delimits (rest : string) : bool :=
  match rest with
  | EmptyString => true
  | String c _ => negb (is_num_char c) && integral rest
  end.

(** The characters a printed value can start with are no white space and
    no punctuation of the grammar. *)
Definition opens_value (c : ascii) : bool :=
  negb (is_ws c)
  && negb (Ascii.eqb c "]") && negb (Ascii.eqb c "}")
  && negb (Ascii.eqb c ",") && negb (Ascii.eqb c ":").

(** The line break and indentation in front of a member at depth [d + 2],
    the text of one member of an object, and the end of an array or object
    followed by [rest]. *)
Definition inner (d : nat) : string := newline ++ spaces (d + 2).

Definition print_field (d : nat) (kv : string * Json) : string :=
  print_string (fst kv) ++ ": " ++ print (d + 2) (snd kv).

Definition closes (d : nat) (bracket rest : string) : string :=
  newline ++ spaces d ++ bracket ++ rest.

Definition well_formed_fields (o : Obj) : bool :=
  distinct (List.map fst o) && forallb (fun kv => well_formed (snd kv)) o.

End JsonText.

(** ** Vocabulary of the specification *)

(** A collection of Items, as the value [readTodos] returns. *)
Definition collection (items : list Obj) : Json := JArr (JObj <$> items).

(** Some Item of the collection carries the id. *)
Definition known (id : string) (items : list Obj) : Prop :=
  exists it, it ∈ items /\ getProp it "id" = Some (JStr id).


(** The operations of the HTTP contract on the collection. *)
Inductive Request : Type :=
| List
| Create (req_body : Obj)
| Update (id : string) (req_body : Obj)
| Delete (id : string).

Definition handle `{Codec} (env : Env) (req : Request) : Async Response :=
  match req with
  | List => get_todos env
  | Create req_body => post_todos env req_body
  | Update id req_body => put_todo env id req_body
  | Delete id => delete_todo id
  end.


(** The answers of the HTTP contract: the status a handler sends and, for a
    failure, the one body that goes with it. *)
Definition documented (req : Request) (r : Response) : Prop :=
  match req with
  | List =>
      status r = 200 \/ r = respond 500 (error_body "Failed to fetch todos")
  | Create _ =>
      status r = 201
      \/ r = respond 400 (error_body "Todo text is required")
      \/ r = respond 500 (error_body "Failed to create todo")
  | Update _ _ =>
      status r = 200
      \/ r = respond 400 (error_body "Todo text cannot be empty")
      \/ r = respond 404 (error_body "Todo not found")
      \/ r = respond 500 (error_body "Failed to update todo")
  | Delete _ =>
      status r = 200
      \/ r = respond 404 (error_body "Todo not found")
      \/ r = respond 500 (error_body "Failed to delete todo")
  end.

(** The invariant of the [text] column: a string in trimmed form, not empty. *)
Definition text_is_trimmed (it : Obj) : Prop :=
  exists s, getProp it "text" = Some (JStr s) /\ s <> "" /\ trim s = s.

(** Whether an Item carries the id. *)
Definition holds (id : string) (it : Obj) : bool :=
  match getProp it "id" with
  | Some (JStr s) => String.eqb s id
  | _ => false
  end.

(** ** The frontend: its copy of the collection

    The page keeps the collection in [todos] and changes it after each
    request it sends.  The functions below are those of the frontend as they
    act on [todos] and, through [fetch], on the data file of the server.
    What they do to the page itself (the list that is drawn, the counters,
    the messages, the loading sign) is left out, and so is the value of
    their promises; the elements of the page the script looks up when it
    starts are taken to exist.  One call runs from its start to its end
    with no other request in between. *)

(** What [apiRequest] hands to its caller: the data of a response that is
    [ok], or a rejection.  The message of the [Error] is shown on the page
    and reaches nothing else. *)
Inductive Reply : Type :=
| Resolved (data : Json)
| Rejected.

(** [response.ok] *)
Definition ok (response : Response) : bool :=
  (200 <=? status response)%nat && (status response <=? 299)%nat.

(** [todos.filter(p)] *)
Fixpoint filter_array (p : Json -> Outcome bool) (todos : list Json)
  : Outcome (list Json) :=
  match todos with
  | [] => Ret []
  | todo :: rest =>
      match p todo with
      | Throw e => Throw e
      | Ret keep =>
          match filter_array p rest with
          | Throw e => Throw e
          | Ret kept => Ret (if keep then todo :: kept else kept)
          end
      end
  end.

(** [todo.id !== id] *)
Definition has_other_id (id : string) (todo : Json) : Outcome bool :=
  match has_id id todo with
  | Ret b => Ret (negb b)
  | Throw e => Throw e
  end.

Section Client.

(** [fetch] and the server behind it: the request may change the data file,
    and a response comes back unless the server sends none. *)
Variable fetch : Request -> Async Response.

(** [apiRequest].  The endpoint, the method and the body make the
    [Request]; every body this server sends is JSON, so [response.json()]
    returns it. *)
Definition apiRequest (req : Request) (fs : FS) : Reply * FS :=
  match fetch req fs with
  | (Ret response, fs') =>
      (if ok response then Resolved (body response) else Rejected, fs')
  | (Throw _, fs') => (Rejected, fs')
  end.

(** [loadTodos]: [todos = await apiRequest("/todos")], unless a load is
    under way; a rejection is caught and [todos] stays. *)
Definition loadTodos (isLoading : bool) (todos : Json) (fs : FS) : Json * FS :=
  if isLoading then (todos, fs)
  else
    match apiRequest List fs with
    | (Resolved data, fs') => (data, fs')
    | (Rejected, fs') => (todos, fs')
    end.

(** [addTodo]: [todos.push(newTodo)] once the request is answered. *)
Definition addTodo (text : string) (todos : Json) (fs : FS) : Json * FS :=
  match apiRequest (Create [("text", JStr text)]) fs with
  | (Resolved newTodo, fs') =>
      match as_array todos with
      | Ret items => (JArr (items ++ [newTodo]), fs')
      | Throw _ => (todos, fs')
      end
  | (Rejected, fs') => (todos, fs')
  end.

(** [updateTodo]: [todos[index] = updatedTodo] at the first element with the
    id, if there is one. *)
Definition updateTodo (id : string) (updates : Obj) (todos : Json) (fs : FS)
  : Json * FS :=
  match apiRequest (Update id updates) fs with
  | (Resolved updatedTodo, fs') =>
      match as_array todos with
      | Ret items =>
          match findIndex (has_id id) items with
          | Ret (Some index) => (JArr (<[index := updatedTodo]> items), fs')
          | Ret None => (todos, fs')
          | Throw _ => (todos, fs')
          end
      | Throw _ => (todos, fs')
      end
  | (Rejected, fs') => (todos, fs')
  end.

(** [deleteTodo]: [todos = todos.filter(todo => todo.id !== id)]. *)
Definition deleteTodo (id : string) (todos : Json) (fs : FS) : Json * FS :=
  match apiRequest (Delete id) fs with
  | (Resolved _, fs') =>
      match as_array todos with
      | Ret items =>
          match filter_array (has_other_id id) items with
          | Ret kept => (JArr kept, fs')
          | Throw _ => (todos, fs')
          end
      | Throw _ => (todos, fs')
      end
  | (Rejected, fs') => (todos, fs')
  end.

(** [handleAddTodo]: the value of the input field is trimmed; an empty text
    is refused on the page, any other is handed to [addTodo]. *)
Definition handleAddTodo (value : string) (todos : Json) (fs : FS) : Json * FS :=
  let text := trim value in
  (* if (!text) *)
  if String.eqb text "" then (todos, fs) else addTodo text todos fs.

End Client.

(** ** Documents of the test-suite *)
Module Fixture.

Definition todo1 : Obj :=
  [("id", JStr "test-id-1"); ("text", JStr "First todo");
   ("completed", JBool false); ("createdAt", JStr "2023-01-01T00:00:00.000Z")].

Definition todo2 : Obj :=
  [("id", JStr "test-id-2"); ("text", JStr "Second todo");
   ("completed", JBool true); ("createdAt", JStr "2023-01-02T00:00:00.000Z")].

(** [data.json] after the [beforeEach] of the DELETE tests. *)
Definition disk : FS :=
  mkFS (Some (JsonText.stringify (collection [todo1; todo2]))) true true.

(** No [data.json] yet. *)
Definition no_file : FS := mkFS None true true.

(** A [data.json] that is not JSON. *)
Definition garbage : FS := mkFS (Some "{ not json") true true.

Definition env : Env :=
  mkEnv 1700000000000 "k3j9x0q2p" "2023-11-14T22:13:20.000Z" true.

(** The file after a first create on an empty store, and the Items that
    two creates at the same clock reading and random draw produce. *)
Definition first : Obj :=
  [("id", JStr "1700000000000k3j9x0q2p"); ("text", JStr "Buy milk");
   ("completed", JBool false); ("createdAt", JStr "2023-11-14T22:13:20.000Z")].

Definition second : Obj :=
  [("id", JStr "1700000000000k3j9x0q2p"); ("text", JStr "Walk dog");
   ("completed", JBool false); ("createdAt", JStr "2023-11-14T22:13:20.000Z")].

Definition after_first : FS :=
  snd (@post_todos JsonText.codec env [("text", JStr "Buy milk")] no_file).


(** [todo1] after [PUT] with [{completed: true}]. *)
Definition todo1_done : Obj :=
  [("id", JStr "test-id-1"); ("text", JStr "First todo");
   ("completed", JBool true); ("createdAt", JStr "2023-01-01T00:00:00.000Z");
   ("updatedAt", JStr "2023-11-14T22:13:20.000Z")].


(** The environment of the test-suite: [NODE_ENV] is "test", nothing is
    logged. *)
Definition quiet : Env :=
  mkEnv 1700000000000 "k3j9x0q2p" "2023-11-15T08:00:00.000Z" false.

(** Files that hold JSON, but not an array of Items. *)
Definition null_file : FS := mkFS (Some "null") true true.

Definition object_file : FS := mkFS (Some "{}") true true.

Definition null_element : FS := mkFS (Some "[null]") true true.

(** [disk] when the process may not write it. *)
Definition read_only : FS :=
  mkFS (Some (JsonText.stringify (collection [todo1; todo2]))) true false.



End Fixture.

(** * Properties *)

(** ** Strings *)

Lemma white_len_bound (s : string) : white_len s <= 3.
Proof.
  unfold white_len. destruct s as [|c [|c1 [|c2 s]]];
    repeat match goal with |- context [if ?b then _ else _] => destruct b end;
    lia.
Qed.

(** The two functions that walk over leading white space agree. *)
Lemma blank_trimStart (s : string) : blank (trimStart s) = blank s.
Proof.
  assert (forall n s, String.length s <= n -> blank (trimStart s) = blank s)
    as Hall; [|by apply (Hall (String.length s))].
  clear s. induction n as [|n IH]; intros s Hlen.
  - destruct s; [done|simpl in Hlen; lia].
  - destruct s as [|c s]; [done|].
    pose proof (white_len_bound (String c s)) as Hb.
    cbn [trimStart blank].
    destruct (white_len (String c s)) as [|[|[|[|k]]]] eqn:Hw; [| | | |lia].
    + cbn [blank]. by rewrite Hw.
    + apply IH. simpl in Hlen. lia.
    + destruct s as [|c1 s]; [cbn [blank]; by rewrite Hw|].
      apply IH. simpl in Hlen. lia.
    + destruct s as [|c1 [|c2 s]]; try (cbn [blank]; by rewrite Hw).
      apply IH. simpl in Hlen. lia.
Qed.

Lemma trimStart_blank (s : string) : blank s = true -> trimStart s = "".
Proof.
  assert (forall n s, String.length s <= n -> blank s = true -> trimStart s = "")
    as Hall; [|by apply (Hall (String.length s))].
  clear s. induction n as [|n IH]; intros s Hlen.
  - destruct s; [done|simpl in Hlen; lia].
  - destruct s as [|c s]; [done|].
    pose proof (white_len_bound (String c s)) as Hb.
    cbn [trimStart blank].
    destruct (white_len (String c s)) as [|[|[|[|k]]]] eqn:Hw; [| | | |lia].
    + done.
    + apply IH. simpl in Hlen. lia.
    + destruct s as [|c1 s]; [done|]. apply IH. simpl in Hlen. lia.
    + destruct s as [|c1 [|c2 s]]; try done. apply IH. simpl in Hlen. lia.
Qed.

Lemma trimEnd_empty_iff (s : string) : trimEnd s = "" <-> blank s = true.
Proof.
  destruct s as [|c s]; [done|]. cbn [trimEnd].
  destruct (blank (String c s)); by split.
Qed.

(** A string trims to the empty string exactly when it is made of white
    space only. *)
Lemma trim_empty_iff (s : string) : trim s = "" <-> blank s = true.
Proof. unfold trim. by rewrite trimEnd_empty_iff, blank_trimStart. Qed.

(** The decimal form of a clock reading has at least one character. *)
(** A white space character is recognised from its own bytes. *)
Lemma white_len_app (a b : string) :
  0 < white_len a -> white_len (a ++ b)%string = white_len a.
Proof.
  destruct a as [|c [|c1 [|c2 a]]]; cbn -[Nat.leb Nat.eqb];
    repeat match goal with
           | |- context [if ?t then _ else _] => destruct t eqn:?
           end; try lia; try reflexivity.
  all: destruct b as [|d [|d1 b]]; cbn -[Nat.leb Nat.eqb];
    repeat match goal with
           | |- context [if ?t then _ else _] => destruct t eqn:?
           end; try lia; try reflexivity; try congruence.
Qed.

Lemma white_len_le_length (s : string) : white_len s <= String.length s.
Proof.
  pose proof (white_len_bound s).
  destruct s as [|c [|c1 [|c2 s]]]; cbn -[Nat.leb Nat.eqb];
    repeat match goal with
           | |- context [if ?t then _ else _] => destruct t
           end; lia.
Qed.

(** White space in front of a string does not change whether it is blank. *)
Lemma blank_app (a b : string) :
  blank a = true -> blank (a ++ b)%string = blank b.
Proof.
  assert (forall n a, String.length a <= n -> blank a = true ->
                      blank (a ++ b)%string = blank b) as Hall;
    [|by apply (Hall (String.length a))].
  clear a. induction n as [|n IH]; intros a Hlen Ha.
  - destruct a; [done|simpl in Hlen; lia].
  - destruct a as [|c a]; [done|].
    assert (0 < white_len (String c a)) as Hpos.
    { cbn [blank] in Ha. destruct (white_len (String c a)); [done|lia]. }
    pose proof (white_len_app (String c a) b Hpos) as Happ.
    pose proof (white_len_bound (String c a)) as Hb.
    cbn [append blank] in *. rewrite Happ.
    destruct (white_len (String c a)) as [|[|[|[|k]]]] eqn:Hw; [lia| | |  |lia].
    + apply IH; [simpl in Hlen; lia|done].
    + destruct a as [|c1 a]; [done|]. cbn [append].
      apply IH; [simpl in Hlen; lia|done].
    + destruct a as [|c1 [|c2 a]]; try done. cbn [append].
      apply IH; [simpl in Hlen; lia|done].
Qed.

(** [trimEnd] cuts a blank end off. *)
Lemma trimEnd_split (s : string) :
  exists w, s = (trimEnd s ++ w)%string /\ blank w = true.
Proof.
  induction s as [|c s (w & Hs & Hw)]; [by exists ""|].
  cbn [trimEnd]. destruct (blank (String c s)) eqn:Hb.
  - by exists (String c s).
  - exists w. cbn [append]. by rewrite <- Hs.
Qed.

Lemma trimEnd_not_blank (s : string) :
  blank s = false -> blank (trimEnd s) = false.
Proof.
  intros Hs. destruct (trimEnd_split s) as (w & Heq & Hw).
  destruct (blank (trimEnd s)) eqn:Hb; [|done].
  rewrite Heq, (blank_app _ _ Hb) in Hs. congruence.
Qed.

Lemma trimEnd_idem (s : string) : trimEnd (trimEnd s) = trimEnd s.
Proof.
  induction s as [|c s IH]; [done|].
  cbn [trimEnd]. destruct (blank (String c s)) eqn:Hb; [done|].
  pose proof (trimEnd_not_blank _ Hb) as Hb'. cbn [trimEnd] in Hb'.
  rewrite Hb in Hb'. cbn [trimEnd]. by rewrite Hb', IH.
Qed.

(** What [trimStart] returns starts with no white space. *)
Lemma white_len_trimStart (s : string) : white_len (trimStart s) = 0.
Proof.
  assert (forall n s, String.length s <= n -> white_len (trimStart s) = 0)
    as Hall; [|by apply (Hall (String.length s))].
  clear s. induction n as [|n IH]; intros s Hlen.
  - destruct s; [done|simpl in Hlen; lia].
  - destruct s as [|c s]; [done|].
    pose proof (white_len_bound (String c s)) as Hb.
    pose proof (white_len_le_length (String c s)) as Hb'.
    cbn [trimStart].
    destruct (white_len (String c s)) as [|[|[|[|k]]]] eqn:Hw; [done| | | |lia].
    + apply IH. simpl in Hlen. lia.
    + destruct s as [|c1 s]; [simpl in Hb'; lia|]. apply IH. simpl in Hlen. lia.
    + destruct s as [|c1 [|c2 s]]; try (simpl in Hb'; lia).
      apply IH. simpl in Hlen. lia.
Qed.

Lemma trimStart_fixed (s : string) : white_len s = 0 -> trimStart s = s.
Proof. intros Hw. destruct s; [reflexivity|]. cbn [trimStart]. by rewrite Hw. Qed.

Lemma white_len_trimEnd (s : string) :
  white_len s = 0 -> white_len (trimEnd s) = 0.
Proof.
  intros Hs. destruct (trimEnd_split s) as (w & Heq & _).
  destruct (white_len (trimEnd s)) eqn:Hw; [done|].
  rewrite Heq, white_len_app in Hs by lia. lia.
Qed.

(** [trim] is idempotent: a trimmed string is its own trim. *)
Lemma trim_idem (s : string) : trim (trim s) = trim s.
Proof.
  unfold trim.
  rewrite (trimStart_fixed (trimEnd (trimStart s)))
    by apply white_len_trimEnd, white_len_trimStart.
  apply trimEnd_idem.
Qed.

Lemma toString_nonempty (ms : Z) : toString ms <> "".
Proof.
  unfold toString, NilZero.string_of_int.
  assert (forall d, NilZero.string_of_uint d <> "") as Hu
    by (intros []; done).
  destruct (Z.to_int ms); [apply Hu|done].
Qed.

Lemma generateId_nonempty (env : Env) : generateId env <> "".
Proof.
  unfold generateId. pose proof (toString_nonempty (Date_now env)).
  by destruct (toString (Date_now env)).
Qed.

(** ** Objects *)

Lemma getProp_setProp_eq (o : Obj) (k : string) (v : Json) :
  getProp (setProp o k v) k = Some v.
Proof.
  induction o as [|[k' v'] o IH]; simpl.
  - by rewrite String.eqb_refl.
  - destruct (String.eqb k' k) eqn:E; simpl; by rewrite E.
Qed.

Lemma getProp_setProp_ne (o : Obj) (k k' : string) (v : Json) :
  k <> k' -> getProp (setProp o k v) k' = getProp o k'.
Proof.
  intros Hne. induction o as [|[k0 v0] o IH]; simpl.
  - destruct (String.eqb_spec k k'); [done|done].
  - destruct (String.eqb_spec k0 k) as [->|Hk]; simpl.
    + by destruct (String.eqb_spec k k').
    + by rewrite IH.
Qed.

(** ** Scanning for an id *)

Lemma has_id_obj_true (id : string) (o : Obj) :
  getProp o "id" = Some (JStr id) -> has_id id (JObj o) = Ret true.
Proof. unfold has_id; simpl. intros ->. by rewrite String.eqb_refl. Qed.

Lemma has_id_obj_false (id : string) (o : Obj) :
  getProp o "id" <> Some (JStr id) -> has_id id (JObj o) = Ret false.
Proof.
  unfold has_id; simpl. intros Hne.
  destruct (getProp o "id") as [[]|]; try done.
  destruct (String.eqb_spec s id); [by subst|done].
Qed.

Lemma has_id_true_inv (id : string) (todo : Json) :
  has_id id todo = Ret true ->
  exists o, todo = JObj o /\ getProp o "id" = Some (JStr id).
Proof.
  unfold has_id. destruct todo; simpl; try done.
  destruct (getProp fields "id") as [[]|] eqn:E; try done.
  destruct (String.eqb_spec s id); [|done]. subst. eauto.
Qed.

(** A successful scan splits the array at the first element with the id. *)
Lemma findIndex_found (id : string) (todos : list Json) (i : nat) :
  findIndex (has_id id) todos = Ret (Some i) ->
  exists before o after,
    todos = before ++ JObj o :: after /\ length before = i
    /\ getProp o "id" = Some (JStr id)
    /\ Forall (fun x => has_id id x = Ret false) before.
Proof.
  revert i. induction todos as [|todo rest IH]; simpl; intros i Hf; [done|].
  destruct (has_id id todo) as [[]|] eqn:Hid; [| |done].
  - destruct (has_id_true_inv _ _ Hid) as (o & -> & Ho).
    injection Hf as <-. by exists [], o, rest.
  - destruct (findIndex (has_id id) rest) as [[j|]|] eqn:Hr; try done.
    simpl in Hf. injection Hf as <-.
    destruct (IH j eq_refl) as (before & o & after & -> & <- & Ho & Hb).
    exists (todo :: before), o, after. repeat split; auto.
Qed.

Lemma findIndex_first (id : string) (before after : list Json) (o : Obj) :
  Forall (fun x => has_id id x = Ret false) before ->
  getProp o "id" = Some (JStr id) ->
  findIndex (has_id id) (before ++ JObj o :: after) = Ret (Some (length before)).
Proof.
  intros Hb Ho. induction Hb as [|x before Hx _ IH]; simpl.
  - by rewrite (has_id_obj_true _ _ Ho).
  - by rewrite Hx, IH.
Qed.

Lemma findIndex_unknown (id : string) (items : list Obj) :
  (forall it, it ∈ items -> getProp it "id" <> Some (JStr id)) ->
  findIndex (has_id id) (JObj <$> items) = Ret None.
Proof.
  induction items as [|it items IH]; intros Hall; [done|].
  rewrite fmap_cons. cbn [findIndex].
  rewrite has_id_obj_false by (apply Hall; left).
  rewrite IH; [done|]. intros x Hx. apply Hall. by right.
Qed.

(** In a collection of Items a known id is found, at its first holder. *)
Lemma known_split (id : string) (items : list Obj) :
  known id items ->
  exists before it after,
    items = before ++ it :: after
    /\ getProp it "id" = Some (JStr id)
    /\ (forall x, x ∈ before -> getProp x "id" <> Some (JStr id)).
Proof.
  induction items as [|x items IH]; intros (it & Hin & Hid).
  - by apply elem_of_nil in Hin.
  - destruct (has_id id (JObj x)) as [[]|] eqn:Hx.
    + destruct (has_id_true_inv _ _ Hx) as (o & [= <-] & Ho).
      exists [], x, items. repeat split; auto. intros y Hy.
      by apply elem_of_nil in Hy.
    + assert (getProp x "id" <> Some (JStr id)) as Hne.
      { intros Heq. by rewrite (has_id_obj_true _ _ Heq) in Hx. }
      apply elem_of_cons in Hin as [->|Hin]; [done|].
      destruct IH as (before & it' & after & -> & Hid' & Hb); [by exists it|].
      exists (x :: before), it', after. repeat split; auto.
      intros y [->|Hy]%elem_of_cons; auto.
    + unfold has_id in Hx; simpl in Hx.
      destruct (getProp x "id") as [[]|]; done.
Qed.

Lemma findIndex_known (id : string) (before after : list Obj) (it : Obj) :
  getProp it "id" = Some (JStr id) ->
  (forall x, x ∈ before -> getProp x "id" <> Some (JStr id)) ->
  findIndex (has_id id) (JObj <$> (before ++ it :: after))
  = Ret (Some (length before)).
Proof.
  intros Hid Hb. rewrite fmap_app, fmap_cons.
  replace (length before) with (length (JObj <$> before))
    by apply length_fmap.
  apply findIndex_first; [|done].
  apply Forall_fmap, Forall_forall. intros x Hx. simpl.
  by apply has_id_obj_false, Hb.
Qed.

(** An array of Items that splits around an object splits as Items. *)
Lemma collection_split
    (items : list Obj) (before after : list Json) (it : Obj) :
  JArr (before ++ JObj it :: after) = collection items ->
  exists b a, before = JObj <$> b /\ after = JObj <$> a /\ items = b ++ it :: a.
Proof.
  unfold collection. intros [= Heq]. symmetry in Heq.
  apply fmap_app_inv in Heq as (b & rest & -> & Hrest & ->).
  symmetry in Hrest.
  apply fmap_cons_inv in Hrest as (it0 & a & [= ->] & -> & ->).
  by exists b, a.
Qed.

(** ** Assignment to a property of an element *)

Lemma assign_middle (before after : list Json) (o : Obj) (k : string) (v : Json) :
  assign (before ++ JObj o :: after) (length before) k v
  = Ret (before ++ JObj (setProp o k v) :: after).
Proof.
  unfold assign. rewrite list_lookup_middle by done.
  by rewrite insert_app_r_alt, Nat.sub_diag by done.
Qed.

(** ** The store accessor *)

Section Store.
Context `{Codec}.

Lemma readTodos_total (fs : FS) : exists todos, readTodos fs = (Ret todos, fs).
Proof.
  unfold readTodos. destruct (readFile fs); [|by eauto].
  destruct (JSON_parse a); by eauto.
Qed.

Lemma writeTodos_ok (todos : Json) (fs : FS) :
  writable fs = true ->
  writeTodos todos fs
  = (Ret tt, mkFS (Some (JSON_stringify todos)) (readable fs) true).
Proof. unfold writeTodos, writeFile. by intros ->. Qed.

End Store.

(** ** The contract of the handlers *)

Section Contract.
Context `{Codec}.

(** One step of a handler: run the monad on the facts at hand. *)
Ltac step :=
  unfold get_todos, post_todos, put_todo, delete_todo, try_catch, bind, lift, ret,
    collection, as_array in *; cbn [fst snd].

(** A logging statement passes or throws; it never touches the file. *)
Lemma log_cases (env : Env) (message : Outcome unit) (fs : FS) :
  log env message fs = (Ret tt, fs) \/ exists e, log env message fs = (Throw e, fs).
Proof.
  unfold log, lift, ret. destruct (logging env); [|by left].
  destruct message as [[]|e]; [by left|right; by exists e].
Qed.

Lemma log_printable (env : Env) (v : option Json) (fs : FS) :
  logging env = false \/ (forall x, v = Some x -> printable x = true) ->
  log env (interpolate v) fs = (Ret tt, fs).
Proof.
  unfold log, lift, ret, interpolate. intros [->|Hp]; [done|].
  destruct (logging env); [|done]. destruct v as [x|]; [|done].
  by rewrite (Hp x).
Qed.

(** *** What each handler can do to the file

    Every run of a handler either leaves the file alone or goes through the
    one successful path, which the following lemmas describe in full. *)

Lemma put_todo_inv
    (env : Env) (id : string) (req_body : Obj) (fs fs' : FS)
    (o : Outcome Response) :
  put_todo env id req_body fs = (o, fs') ->
  (fs' = fs /\ exists r, o = Ret r /\ status r <> 200)
  \/ exists before it after it',
       readTodos fs = (Ret (JArr (before ++ JObj it :: after)), fs)
       /\ getProp it "id" = Some (JStr id)
       /\ Forall (fun x => has_id id x = Ret false) before
       /\ writable fs = true
       /\ o = Ret (respond 200 (JObj it'))
       /\ fs' = mkFS (Some (JSON_stringify
                              (JArr (before ++ JObj it' :: after))))
                     (readable fs) true
       /\ it' = setProp
                  (match getProp req_body "completed" with
                   | Some c => fun o => setProp o "completed" c
                   | None => fun o => o
                   end
                     (match getProp req_body "text" with
                      | Some (JStr s) => setProp it "text" (JStr (trim s))
                      | _ => it
                      end))
                  "updatedAt" (JStr (toISOString env))
       /\ match getProp req_body "text" with
          | None => True
          | Some v => exists s, v = JStr s /\ trim s <> ""
          end.
Proof.
  intros Hput. step.
  assert (forall msg, (Ret (respond 500 (error_body msg)), fs) = (o, fs') ->
            fs' = fs /\ exists r, o = Ret r /\ status r <> 200) as H500
    by (intros msg [= <- <-]; eauto).
  assert (forall msg, (Ret (respond 404 (error_body msg)), fs) = (o, fs') ->
            fs' = fs /\ exists r, o = Ret r /\ status r <> 200) as H404
    by (intros msg [= <- <-]; eauto).
  assert (forall msg, (Ret (respond 400 (error_body msg)), fs) = (o, fs') ->
            fs' = fs /\ exists r, o = Ret r /\ status r <> 200) as H400
    by (intros msg [= <- <-]; eauto).
  destruct (readTodos_total fs) as [todos Hread]. rewrite Hread in Hput.
  destruct todos as [| | | |todos|]; try (left; by eapply H500).
  destruct (findIndex (has_id id) todos) as [[i|]|] eqn:Hfind;
    [|left; by eapply H404|left; by eapply H500].
  destruct (findIndex_found _ _ _ Hfind)
    as (before & it & after & -> & <- & Hid & Hb).
  assert (forall o : Obj,
    (before ++ JObj o :: after) !! length before = Some (JObj o)) as Hat
    by (intros; by apply list_lookup_middle).
  destruct (getProp req_body "text") as [v|] eqn:Htext.
  - destruct v as [| | |s| |]; cbn [call_trim] in Hput;
      try (left; by eapply H500).
    destruct (String.eqb_spec (trim s) "") as [Hblank|Hblank];
      [left; by eapply H400|].
    destruct (log_cases env
                (interpolate_prop (before ++ JObj it :: after) (length before)
                   "text") fs) as [Hl|[e Hl]];
      rewrite Hl in Hput; [|left; by eapply H500].
    rewrite assign_middle in Hput.
    destruct (getProp req_body "completed") as [c|].
    + match type of Hput with context [log env ?m fs] =>
        destruct (log_cases env m fs) as [Hl1|[e Hl1]];
          rewrite Hl1 in Hput; [|left; by eapply H500] end.
      match type of Hput with context [log env ?m fs] =>
        destruct (log_cases env m fs) as [Hl2|[e Hl2]];
          rewrite Hl2 in Hput; [|left; by eapply H500] end.
      rewrite !assign_middle in Hput. unfold writeTodos, writeFile in Hput.
      destruct (writable fs) eqn:Hw; [|left; by eapply H500].
      rewrite Hat in Hput. injection Hput as <- <-.
      right; eexists before, it, after, _; repeat split; eauto.
    + rewrite !assign_middle in Hput. unfold writeTodos, writeFile in Hput.
      destruct (writable fs) eqn:Hw; [|left; by eapply H500].
      rewrite Hat in Hput. injection Hput as <- <-.
      right; eexists before, it, after, _; repeat split; eauto.
  - destruct (getProp req_body "completed") as [c|].
    + match type of Hput with context [log env ?m fs] =>
        destruct (log_cases env m fs) as [Hl1|[e Hl1]];
          rewrite Hl1 in Hput; [|left; by eapply H500] end.
      match type of Hput with context [log env ?m fs] =>
        destruct (log_cases env m fs) as [Hl2|[e Hl2]];
          rewrite Hl2 in Hput; [|left; by eapply H500] end.
      rewrite !assign_middle in Hput. unfold writeTodos, writeFile in Hput.
      destruct (writable fs) eqn:Hw; [|left; by eapply H500].
      rewrite Hat in Hput. injection Hput as <- <-.
      right; eexists before, it, after, _; repeat split; eauto.
    + rewrite !assign_middle in Hput. unfold writeTodos, writeFile in Hput.
      destruct (writable fs) eqn:Hw; [|left; by eapply H500].
      rewrite Hat in Hput. injection Hput as <- <-.
      right; eexists before, it, after, _; repeat split; eauto.
Qed.

Lemma get_todos_inv (env : Env) (fs : FS) :
  exists r, get_todos env fs = (Ret r, fs).
Proof.
  step. destruct (readTodos_total fs) as [todos ->].
  match goal with |- context [log env ?m fs] =>
    destruct (log_cases env m fs) as [->|[e ->]] end; eauto.
Qed.

(** Listing an array returns it. *)
Lemma get_todos_array (env : Env) (fs : FS) (todos : list Json) :
  readTodos fs = (Ret (JArr todos), fs) ->
  get_todos env fs = (Ret (respond 200 (JArr todos)), fs).
Proof. intros Hread. step. rewrite Hread. unfold log. by destruct (logging env). Qed.

(** The log line of create stands in front of the [try]: with logging on, a
    text that cannot be printed makes the handler throw before it answers. *)
Lemma post_unprintable_text_throws
    (env : Env) (req_body : Obj) (fs : FS) (v : Json) :
  logging env = true ->
  getProp req_body "text" = Some v ->
  printable v = false ->
  exists e, post_todos env req_body fs = (Throw e, fs).
Proof.
  intros Hlog Htext Hp. step. unfold log, interpolate, lift.
  rewrite Hlog, Htext, Hp. eauto.
Qed.

Lemma post_todos_inv
    (env : Env) (req_body : Obj) (fs fs' : FS) (o : Outcome Response) :
  post_todos env req_body fs = (o, fs') ->
  (fs' = fs /\ forall r, o = Ret r -> status r <> 201)
  \/ exists todos s,
       readTodos fs = (Ret (JArr todos), fs)
       /\ getProp req_body "text" = Some (JStr s)
       /\ trim s <> ""
       /\ writable fs = true
       /\ let newTodo := JObj [("id", JStr (generateId env));
                               ("text", JStr (trim s));
                               ("completed", JBool false);
                               ("createdAt", JStr (toISOString env))] in
          o = Ret (respond 201 newTodo)
          /\ fs' = mkFS (Some (JSON_stringify (JArr (todos ++ [newTodo]))))
                        (readable fs) true.
Proof.
  intros Hpost. step.
  assert (forall code msg, code <> 201 ->
            (Ret (respond code (error_body msg)), fs) = (o, fs') ->
            fs' = fs /\ forall r, o = Ret r -> status r <> 201) as Hfail.
  { intros code msg Hcode [= <- <-]. split; [done|]. by intros r [= <-]. }
  destruct (log_cases env (interpolate (getProp req_body "text")) fs)
    as [Hl|[e Hl]]; rewrite Hl in Hpost;
    [|left; injection Hpost as <- <-; by split].
  destruct (getProp req_body "text") as [v|] eqn:Htext;
    [|cbn [truthy negb] in Hpost; left; eapply Hfail; [|eassumption]; done].
  destruct (truthy (Some v)) eqn:Htruthy; cbn [negb] in Hpost;
    [|left; eapply Hfail; [|eassumption]; done].
  destruct v as [| | |s| |]; cbn [call_trim] in Hpost;
    try (left; eapply Hfail; [|eassumption]; done).
  destruct (String.eqb_spec (trim s) "") as [Hblank|Hblank];
    [left; eapply Hfail; [|eassumption]; done|].
  destruct (readTodos_total fs) as [todos Hread]. rewrite Hread in Hpost.
  destruct todos as [| | | |todos|]; try (left; eapply Hfail; [|eassumption]; done).
  unfold writeTodos, writeFile in Hpost.
  destruct (writable fs) eqn:Hw; [|left; eapply Hfail; [|eassumption]; done].
  injection Hpost as <- <-. right. exists todos, s. by repeat split.
Qed.

Lemma delete_todo_inv (id : string) (fs fs' : FS) (o : Outcome Response) :
  delete_todo id fs = (o, fs') ->
  (fs' = fs /\ exists r, o = Ret r /\ status r <> 200)
  \/ exists before it after,
       readTodos fs = (Ret (JArr (before ++ JObj it :: after)), fs)
       /\ getProp it "id" = Some (JStr id)
       /\ Forall (fun x => has_id id x = Ret false) before
       /\ writable fs = true
       /\ o = Ret (respond 200
                     (JObj [("message", JStr "Todo deleted successfully");
                            ("todo", JObj it)]))
       /\ fs' = mkFS (Some (JSON_stringify (JArr (before ++ after))))
                     (readable fs) true.
Proof.
  intros Hdel. step.
  assert (forall code msg, code <> 200 ->
            (Ret (respond code (error_body msg)), fs) = (o, fs') ->
            fs' = fs /\ exists r, o = Ret r /\ status r <> 200) as Hfail
    by (intros code msg Hcode [= <- <-]; eauto).
  destruct (readTodos_total fs) as [todos Hread]. rewrite Hread in Hdel.
  destruct todos as [| | | |todos|]; try (left; eapply Hfail; [|eassumption]; done).
  destruct (findIndex (has_id id) todos) as [[i|]|] eqn:Hfind;
    try (left; eapply Hfail; [|eassumption]; done).
  destruct (findIndex_found _ _ _ Hfind)
    as (before & it & after & -> & <- & Hid & Hb).
  rewrite delete_middle, list_lookup_middle in Hdel by done.
  unfold writeTodos, writeFile in Hdel.
  destruct (writable fs) eqn:Hw; [|left; eapply Hfail; [|eassumption]; done].
  injection Hdel as <- <-. right. exists before, it, after. by repeat split.
Qed.

(** Reading back what was written, when the codec round-trips the value. *)
Lemma read_after_write (todos : Json) (fs : FS) :
  readable fs = true ->
  JSON_parse (JSON_stringify todos) = Some todos ->
  let fs' := mkFS (Some (JSON_stringify todos)) (readable fs) true in
  readTodos fs' = (Ret todos, fs').
Proof. intros Hr Hrt. unfold readTodos, readFile. simpl. by rewrite Hr, Hrt. Qed.

(** *** The successful paths, run forward *)

Lemma post_todos_ok
    (env : Env) (req_body : Obj) (fs : FS) (todos : list Json) (s : string) :
  readTodos fs = (Ret (JArr todos), fs) ->
  writable fs = true ->
  getProp req_body "text" = Some (JStr s) ->
  trim s <> "" ->
  let newTodo := JObj [("id", JStr (generateId env)); ("text", JStr (trim s));
                       ("completed", JBool false);
                       ("createdAt", JStr (toISOString env))] in
  post_todos env req_body fs
  = (Ret (respond 201 newTodo),
     mkFS (Some (JSON_stringify (JArr (todos ++ [newTodo])))) (readable fs) true).
Proof.
  intros Hread Hw Htext Hblank. step.
  rewrite log_printable by (right; rewrite Htext; by intros x [= <-]).
  rewrite Htext. cbn [truthy call_trim].
  assert (String.eqb s "" = false) as ->.
  { destruct (String.eqb_spec s ""); [by subst|done]. }
  cbn [negb]. destruct (String.eqb_spec (trim s) ""); [done|].
  rewrite Hread. unfold writeTodos, writeFile. by rewrite Hw.
Qed.

Lemma delete_todo_ok
    (id : string) (fs : FS) (before after : list Obj) (it : Obj) :
  readTodos fs = (Ret (collection (before ++ it :: after)), fs) ->
  writable fs = true ->
  getProp it "id" = Some (JStr id) ->
  (forall x, x ∈ before -> getProp x "id" <> Some (JStr id)) ->
  delete_todo id fs
  = (Ret (respond 200 (JObj [("message", JStr "Todo deleted successfully");
                             ("todo", JObj it)])),
     mkFS (Some (JSON_stringify (collection (before ++ after))))
          (readable fs) true).
Proof.
  intros Hread Hw Hid Hb. step. rewrite Hread.
  rewrite (findIndex_known id before after it Hid Hb).
  rewrite !fmap_app, fmap_cons.
  replace (length before) with (length (JObj <$> before)) by apply length_fmap.
  rewrite delete_middle, list_lookup_middle by done.
  unfold writeTodos, writeFile. by rewrite Hw.
Qed.

Lemma log_prop_printable
    (env : Env) (before after : list Json) (o : Obj) (k : string) (fs : FS) :
  logging env = false \/ (forall x, getProp o k = Some x -> printable x = true) ->
  log env (interpolate_prop (before ++ JObj o :: after) (length before) k) fs
  = (Ret tt, fs).
Proof.
  intros Hp. unfold interpolate_prop. rewrite list_lookup_middle by done.
  by apply log_printable.
Qed.

(** An update of a known id whose text, if any, is a string that does not
    trim to the empty string answers 200 on a writable file, provided the
    log lines can print the values they mention or logging is off. *)
Lemma put_todo_ok
    (env : Env) (id : string) (req_body : Obj) (fs : FS)
    (before after : list Obj) (it : Obj) :
  readTodos fs = (Ret (collection (before ++ it :: after)), fs) ->
  getProp it "id" = Some (JStr id) ->
  (forall x, x ∈ before -> getProp x "id" <> Some (JStr id)) ->
  writable fs = true ->
  (getProp req_body "text" = None
   \/ exists s, getProp req_body "text" = Some (JStr s) /\ blank s = false) ->
  (logging env = false
   \/ forall x, (getProp it "text" = Some x \/ getProp it "completed" = Some x
                 \/ getProp req_body "completed" = Some x) ->
                printable x = true) ->
  exists it',
    put_todo env id req_body fs
    = (Ret (respond 200 (JObj it')),
       mkFS (Some (JSON_stringify (collection (before ++ it' :: after))))
            (readable fs) true).
Proof.
  intros Hread Hid Hb Hw Htext Hlog. step. rewrite Hread.
  rewrite (findIndex_known id before after it Hid Hb).
  rewrite !fmap_app, fmap_cons.
  replace (length before) with (length (JObj <$> before)) by apply length_fmap.
  assert (forall (o : Obj) (k : string),
            getProp o "completed" = getProp it "completed" ->
            k = "text" \/ k = "completed" ->
            (k = "text" -> o = it) ->
            log env (interpolate_prop ((JObj <$> before) ++ JObj o :: (JObj <$> after))
                       (length (JObj <$> before)) k) fs = (Ret tt, fs)) as Hprop.
  { intros o k Hsame Hk Ho. apply log_prop_printable.
    destruct Hlog as [?|Hp]; [by left|right]. intros x Hx. apply Hp.
    destruct Hk as [->| ->]; [left; by rewrite <- (Ho eq_refl)|].
    right; left. by rewrite <- Hsame. }
  assert (log env (interpolate (getProp req_body "completed")) fs = (Ret tt, fs))
    as Hreq.
  { apply log_printable. destruct Hlog as [?|Hp]; [by left|right].
    intros x Hx. apply Hp. auto. }
  destruct Htext as [->|(s & -> & Hblank)].
  - destruct (getProp req_body "completed") as [c|].
    + rewrite Hprop, Hreq by auto. rewrite !assign_middle.
      unfold writeTodos, writeFile. rewrite Hw.
      eexists. by rewrite fmap_app, fmap_cons, list_lookup_middle by done.
    + rewrite !assign_middle. unfold writeTodos, writeFile. rewrite Hw.
      eexists. by rewrite fmap_app, fmap_cons, list_lookup_middle by done.
  - cbn [call_trim].
    destruct (String.eqb_spec (trim s) "") as [Hempty%trim_empty_iff|_];
      [congruence|].
    rewrite Hprop by auto. rewrite assign_middle.
    destruct (getProp req_body "completed") as [c|].
    + rewrite Hprop, Hreq; [|by apply getProp_setProp_ne|auto|done].
      rewrite !assign_middle. unfold writeTodos, writeFile. rewrite Hw.
      eexists. by rewrite fmap_app, fmap_cons, list_lookup_middle by done.
    + rewrite !assign_middle. unfold writeTodos, writeFile. rewrite Hw.
      eexists. by rewrite fmap_app, fmap_cons, list_lookup_middle by done.
Qed.

(** C7. [readTodos] never fails and never touches the file.  It returns the
    value the file's text parses to; when the file is absent, when it cannot
    be read, and when its text is not JSON, it returns the empty array. *)
Theorem readTodos_fail_open (fs : FS) :
  (exists todos, readTodos fs = (Ret todos, fs))
  /\ (forall data todos,
        contents fs = Some data -> readable fs = true ->
        JSON_parse data = Some todos -> readTodos fs = (Ret todos, fs))
  /\ (contents fs = None -> readTodos fs = (Ret (JArr []), fs))
  /\ (readable fs = false -> readTodos fs = (Ret (JArr []), fs))
  /\ (forall data,
        contents fs = Some data -> JSON_parse data = None ->
        readTodos fs = (Ret (JArr []), fs)).
Proof.
  split; [apply readTodos_total|]. unfold readTodos, readFile.
  repeat split.
  - intros data todos -> -> ->. done.
  - intros ->. done.
  - intros ->. by destruct (contents fs).
  - intros data -> Hbad. destruct (readable fs); [|done]. by rewrite Hbad.
Qed.

(** C8. A create request whose text is absent, empty or made of white space
    only is answered 400 with the one message "Todo text is required", and
    the data file is left as it was, whatever it holds. *)
Theorem post_rejects_blank_text (env : Env) (req_body : Obj) (fs : FS) :
  (getProp req_body "text" = None
   \/ exists s, getProp req_body "text" = Some (JStr s) /\ blank s = true) ->
  post_todos env req_body fs
  = (Ret (respond 400 (error_body "Todo text is required")), fs).
Proof.
  intros [Habsent|(s & Htext & Hblank)]; step.
  - rewrite log_printable by (right; by rewrite Habsent). by rewrite Habsent.
  - rewrite log_printable by (right; rewrite Htext; by intros x [= <-]).
    rewrite Htext. cbn [truthy call_trim].
    apply trim_empty_iff in Hblank. rewrite Hblank.
    by destruct (String.eqb s "").
Qed.

(** C1. An update of a known id whose text is present and trims to the empty
    string is answered 400 "Todo text cannot be empty", whatever else the
    request carries (a completed value included).  Nothing is written: the
    file is the same afterwards, so reading it again returns the same Items,
    with every field (updatedAt and completed among them) as before. *)
Theorem put_rejects_blank_text
    (env : Env) (id : string) (req_body : Obj) (fs : FS)
    (items : list Obj) (s : string) :
  readTodos fs = (Ret (collection items), fs) ->
  known id items ->
  getProp req_body "text" = Some (JStr s) ->
  trim s = "" ->
  put_todo env id req_body fs
  = (Ret (respond 400 (error_body "Todo text cannot be empty")), fs)
  /\ readTodos (snd (put_todo env id req_body fs))
     = (Ret (collection items), snd (put_todo env id req_body fs)).
Proof.
  intros Hread Hknown Htext Hblank.
  assert (put_todo env id req_body fs
          = (Ret (respond 400 (error_body "Todo text cannot be empty")), fs)) as Hput.
  { destruct (known_split _ _ Hknown) as (before & it & after & -> & Hid & Hb).
    step. rewrite Hread.
    rewrite (findIndex_known id before after it Hid Hb).
    rewrite Htext. cbn [call_trim]. by rewrite Hblank. }
  by rewrite Hput.
Qed.

(** C5. When no Item of the collection carries the id, update and delete
    both answer 404 "Todo not found" and write nothing: the data file is
    identical afterwards. *)
Theorem unknown_id_not_found
    (env : Env) (id : string) (req_body : Obj) (fs : FS) (items : list Obj) :
  readTodos fs = (Ret (collection items), fs) ->
  (forall it, it ∈ items -> getProp it "id" <> Some (JStr id)) ->
  put_todo env id req_body fs = (Ret (respond 404 (error_body "Todo not found")), fs)
  /\ delete_todo id fs = (Ret (respond 404 (error_body "Todo not found")), fs).
Proof.
  intros Hread Hunknown. split; step.
  all: rewrite Hread; by rewrite (findIndex_unknown id items Hunknown).
Qed.

(** C4. Whenever an update answers 200, the array that was read splits
    around the first element with the id, and the array that is written
    differs from it in that element only.  In the updated Item updatedAt is
    the current time; id and createdAt, and every property other than text,
    completed and updatedAt, are as before; text is as before when the
    request has none and is the request's text trimmed otherwise; completed
    is as before when the request has none and is the request's value
    otherwise.  The response carries the updated Item. *)
Theorem put_success_frame
    (env : Env) (id : string) (req_body : Obj) (fs fs' : FS) (r : Response) :
  put_todo env id req_body fs = (Ret r, fs') ->
  status r = 200 ->
  exists before it after it',
    readTodos fs = (Ret (JArr (before ++ JObj it :: after)), fs)
    /\ getProp it "id" = Some (JStr id)
    /\ r = respond 200 (JObj it')
    /\ fs' = mkFS (Some (JSON_stringify (JArr (before ++ JObj it' :: after))))
                  (readable fs) true
    /\ getProp it' "updatedAt" = Some (JStr (toISOString env))
    /\ getProp it' "id" = getProp it "id"
    /\ getProp it' "createdAt" = getProp it "createdAt"
    /\ match getProp req_body "text" with
       | None => getProp it' "text" = getProp it "text"
       | Some v => exists s, v = JStr s /\ trim s <> ""
                             /\ getProp it' "text" = Some (JStr (trim s))
       end
    /\ match getProp req_body "completed" with
       | None => getProp it' "completed" = getProp it "completed"
       | Some c => getProp it' "completed" = Some c
       end
    /\ (forall k, k <> "text" -> k <> "completed" -> k <> "updatedAt" ->
                  getProp it' k = getProp it k).
Proof.
  intros Hput Hok.
  destruct (put_todo_inv _ _ _ _ _ _ Hput)
    as [(_ & r' & [= <-] & Hno)
       |(before & it & after & it' & Hread & Hid & _ & _ & [= ->] & -> & Hit' & Htext)];
    [done|].
  exists before, it, after, it'.
  assert (forall k, k <> "text" -> k <> "completed" -> k <> "updatedAt" ->
                    getProp it' k = getProp it k) as Hframe.
  { intros k Ht Hc Hu. subst it'.
    rewrite getProp_setProp_ne by done.
    destruct (getProp req_body "completed");
      rewrite ?getProp_setProp_ne by done;
      destruct (getProp req_body "text") as [[]|];
      by rewrite ?getProp_setProp_ne by done. }
  repeat split; try done.
  - subst it'. apply getProp_setProp_eq.
  - by apply Hframe.
  - by apply Hframe.
  - subst it'. rewrite getProp_setProp_ne by done.
    destruct (getProp req_body "text") as [v|].
    + destruct Htext as (s & -> & Hs). exists s. repeat split; try done.
      destruct (getProp req_body "completed");
        rewrite ?getProp_setProp_ne by done; apply getProp_setProp_eq.
    + destruct (getProp req_body "completed");
        by rewrite ?getProp_setProp_ne by done.
  - subst it'. rewrite getProp_setProp_ne by done.
    destruct (getProp req_body "completed"); [apply getProp_setProp_eq|].
    destruct (getProp req_body "text") as [[]|];
      by rewrite ?getProp_setProp_ne by done.
Qed.


(** C10 (as amended).  When the text of a request is truthy and not a string,
    trimming it throws.  Create answers 500 "Failed to create todo" before it
    reads anything, provided the log line in front of its [try] can print
    the text or logging is off.  Update answers 500 "Failed to update todo"
    when the id is known in the collection.  Neither writes: the file is the
    same afterwards. *)
Theorem nonstring_text_is_a_500
    (env : Env) (req_body : Obj) (fs : FS) (v : Json) :
  getProp req_body "text" = Some v ->
  truthy (Some v) = true ->
  (forall s, v <> JStr s) ->
  (logging env = false \/ printable v = true ->
   post_todos env req_body fs
   = (Ret (respond 500 (error_body "Failed to create todo")), fs))
  /\ (forall id items,
        readTodos fs = (Ret (collection items), fs) ->
        known id items ->
        put_todo env id req_body fs
        = (Ret (respond 500 (error_body "Failed to update todo")), fs)).
Proof.
  intros Htext Htruthy Hnostr. split.
  - intros Hlog. step.
    rewrite log_printable
      by (destruct Hlog; [by left|right; rewrite Htext; by intros x [= <-]]).
    rewrite Htext, Htruthy. cbn [negb].
    destruct v; cbn [call_trim]; try done. by destruct (Hnostr s).
  - intros id items Hread Hknown.
    destruct (known_split _ _ Hknown) as (before & it & after & -> & Hid & Hb).
    step. rewrite Hread, (findIndex_known id before after it Hid Hb), Htext.
    destruct v; cbn [call_trim]; try done. by destruct (Hnostr s).
Qed.

End Contract.

(** ** Reading back what was written

    The statements of this section follow the file through a write and the
    next read, so they are about codecs that parse back what they print. *)

Section RoundTrip.
Context `{CodecLaws}.

(** What [readTodos] returns is well formed: it was parsed, or it is the
    empty array. *)
Lemma readTodos_well_formed (fs : FS) (todos : Json) :
  readTodos fs = (Ret todos, fs) -> well_formed todos = true.
Proof.
  unfold readTodos. destruct (readFile fs) as [data|]; [|by intros [= <-]].
  destruct (JSON_parse data) as [v|] eqn:Hparse; intros [= <-]; [|done].
  by eapply JSON_parse_well_formed.
Qed.

(** X23. For a text that does not trim to the empty string and a writable
    file holding an array, create answers 201 with the new Item and writes
    the array with exactly that Item added at the end, the elements before
    it in their order; listing afterwards returns that array.  The Item's
    text is the input trimmed, its completed is false, its createdAt is the
    current time, it has no updatedAt, and its id is the non-empty string
    that [generateId] returns.  (Whether that string is new to the
    collection is not part of this statement.) *)
Theorem post_appends_item
    (env : Env) (req_body : Obj) (fs : FS) (todos : list Json) (s : string) :
  readTodos fs = (Ret (JArr todos), fs) ->
  writable fs = true ->
  getProp req_body "text" = Some (JStr s) ->
  blank s = false ->
  exists newTodo : Obj,
    post_todos env req_body fs
    = (Ret (respond 201 (JObj newTodo)),
       mkFS (Some (JSON_stringify (JArr (todos ++ [JObj newTodo]))))
            (readable fs) true)
    /\ getProp newTodo "text" = Some (JStr (trim s))
    /\ getProp newTodo "completed" = Some (JBool false)
    /\ getProp newTodo "createdAt" = Some (JStr (toISOString env))
    /\ getProp newTodo "updatedAt" = None
    /\ getProp newTodo "id" = Some (JStr (generateId env))
    /\ generateId env <> ""
    /\ (readable fs = true ->
        forall env',
          fst (get_todos env' (snd (post_todos env req_body fs)))
          = Ret (respond 200 (JArr (todos ++ [JObj newTodo])))).
Proof.
  intros Hread Hw Htext Hblank.
  assert (trim s <> "") as Htrim.
  { intros Hempty%trim_empty_iff. congruence. }
  eexists. split; [by apply post_todos_ok|].
  repeat split; try done; [apply generateId_nonempty|].
  intros Hr env'. rewrite (post_todos_ok env req_body fs todos s) by done.
  cbn [snd]. erewrite get_todos_array; [done|].
  apply read_after_write; [done|]. apply JSON_parse_stringify.
  pose proof (readTodos_well_formed fs (JArr todos) Hread) as Hwf.
  cbn [well_formed] in *. rewrite forallb_app, Hwf. done.
Qed.

(** C6 (as amended).  Deleting a known id from a file that accepts the write
    answers 200 with the confirmation message and the removed Item, which is
    the first Item with that id, and writes the collection without it: the
    Items before and after it in their order, one Item fewer.  Reading the
    file afterwards returns that collection. *)
Theorem delete_removes_item (id : string) (fs : FS) (items : list Obj) :
  readTodos fs = (Ret (collection items), fs) ->
  writable fs = true ->
  known id items ->
  exists before it after,
    items = before ++ it :: after
    /\ getProp it "id" = Some (JStr id)
    /\ (forall x, x ∈ before -> getProp x "id" <> Some (JStr id))
    /\ delete_todo id fs
       = (Ret (respond 200
                 (JObj [("message", JStr "Todo deleted successfully");
                        ("todo", JObj it)])),
          mkFS (Some (JSON_stringify (collection (before ++ after))))
               (readable fs) true)
    /\ length items = S (length (before ++ after))
    /\ (readable fs = true ->
        fst (readTodos (snd (delete_todo id fs)))
        = Ret (collection (before ++ after))).
Proof.
  intros Hread Hw Hknown.
  destruct (known_split _ _ Hknown) as (before & it & after & -> & Hid & Hb).
  exists before, it, after.
  assert (Hdel := delete_todo_ok id fs before after it Hread Hw Hid Hb).
  repeat split; try done.
  - rewrite !length_app. simpl. lia.
  - intros Hr. rewrite Hdel. cbn [snd]. rewrite read_after_write; [done|done|].
    apply JSON_parse_stringify.
    pose proof (readTodos_well_formed fs _ Hread) as Hwf.
    unfold collection in *. cbn [well_formed] in *.
    rewrite fmap_app, forallb_app in *. rewrite fmap_cons in Hwf.
    cbn [forallb] in Hwf.
    apply andb_true_iff in Hwf as [-> [_ ->]%andb_true_iff]. done.
Qed.


End RoundTrip.

(** * The executable codec is lawful *)

Module JsonTextLaws.

Import JsonText.

Lemma append_assoc (a b c : string) : ((a ++ b) ++ c = a ++ (b ++ c))%string.
Proof. induction a as [|x a IH]; simpl; [done|]. by rewrite IH. Qed.

Lemma append_nil_r (a : string) : (a ++ "" = a)%string.
Proof. induction a as [|x a IH]; simpl; [done|]. by rewrite IH. Qed.

Lemma length_append (a b : string) :
  String.length (a ++ b)%string = String.length a + String.length b.
Proof. induction a as [|x a IH]; simpl; [done|]. by rewrite IH. Qed.

(** *** String literals *)

Lemma parse_chars_escape_char (c : ascii) (t : string) :
  parse_chars (escape_char c ++ t)%string
  = match parse_chars t with
    | Some (str, r) => Some (String c str, r)
    | None => None
    end.
Proof.
  destruct c as [[] [] [] [] [] [] [] []]; vm_compute escape_char;
    cbn -[parse_chars]; cbn [parse_chars]; try reflexivity.
Qed.

Lemma parse_chars_escape (s rest : string) :
  parse_chars (escape s ++ quote ++ rest)%string = Some (s, rest).
Proof.
  induction s as [|c s IH]; [done|].
  cbn [escape]. rewrite append_assoc, parse_chars_escape_char. by rewrite IH.
Qed.

Lemma print_string_parses (s rest : string) :
  exists body, (print_string s ++ rest = String (ascii_of_nat 34) body)%string
               /\ parse_chars body = Some (s, rest).
Proof.
  exists (escape s ++ quote ++ rest)%string. split.
  - unfold print_string, quote, chr. simpl. by rewrite append_assoc.
  - apply parse_chars_escape.
Qed.

(** *** Integer literals *)

Lemma string_of_uint_num (d : Decimal.uint) :
  all_chars is_num_char (NilEmpty.string_of_uint d) = true.
Proof. induction d; simpl; auto. Qed.

Lemma toString_num (z : Z) : all_chars is_num_char (toString z) = true.
Proof.
  unfold toString, NilZero.string_of_int, NilZero.string_of_uint.
  destruct (Z.to_int z) as [d|d]; destruct d; simpl;
    auto using string_of_uint_num.
Qed.

Lemma span_num_app (tok rest : string) :
  all_chars is_num_char tok = true ->
  delimits rest = true ->
  span_num (tok ++ rest)%string = (tok, rest).
Proof.
  intros Htok Hrest. induction tok as [|c tok IH]; simpl.
  - destruct rest as [|c rest]; [done|]. simpl in *.
    by destruct (is_num_char c).
  - simpl in Htok. apply andb_true_iff in Htok as [-> Htok]. by rewrite IH.
Qed.

Lemma int_of_toString (z : Z) :
  NilZero.int_of_string (toString z) = Some (Z.to_int z).
Proof.
  unfold toString. apply NilZero.isi.
  - destruct z; simpl; try done. intros [= Hp].
    by apply (Unsigned.to_uint_nonnil p).
  - destruct z; simpl; try done. intros [= Hp].
    by apply (Unsigned.to_uint_nonnil p).
Qed.

Lemma parse_number_toString (z : Z) (rest : string) :
  delimits rest = true ->
  parse_number (toString z ++ rest)%string = Some (z, rest).
Proof.
  intros Hrest. unfold parse_number.
  rewrite span_num_app by auto using toString_num.
  assert (integral rest = true) as ->.
  { destruct rest; [done|]. unfold delimits in Hrest.
    by apply andb_true_iff in Hrest as [_ ->]. }
  rewrite int_of_toString, DecimalZ.of_to. by rewrite String.eqb_refl.
Qed.

(** The first character of a decimal form is a digit or the sign. *)
Lemma toString_head (z : Z) :
  exists c tail, toString z = String c tail /\ is_num_char c = true.
Proof.
  pose proof (toString_num z) as Hnum.
  destruct (toString z) as [|c tail] eqn:Hz.
  - by destruct (toString_nonempty z).
  - exists c, tail. split; [done|]. simpl in Hnum.
    by apply andb_true_iff in Hnum as [-> _].
Qed.

(** *** White space *)

Lemma skip_ws_spaces (k : nat) (s : string) :
  skip_ws (spaces k ++ s)%string = skip_ws s.
Proof. induction k as [|k IH]; simpl; auto. Qed.

Lemma skip_ws_inner (k : nat) (s : string) :
  skip_ws (newline ++ spaces k ++ s)%string = skip_ws s.
Proof. simpl. apply skip_ws_spaces. Qed.

Lemma skip_ws_idem (s : string) : skip_ws (skip_ws s) = skip_ws s.
Proof.
  induction s as [|c s IH]; simpl; [done|].
  destruct (is_ws c) eqn:E; [done|]. simpl. by rewrite E.
Qed.

Lemma parse_value_skip (n : nat) (s : string) :
  parse_value n (skip_ws s) = parse_value n s.
Proof. destruct n; [done|]. simpl. by rewrite skip_ws_idem. Qed.

(** *** The first character of a printed value *)

Lemma num_char_opens (c : ascii) : is_num_char c = true -> opens_value c = true.
Proof. destruct c as [[] [] [] [] [] [] [] []]; vm_compute; congruence. Qed.

Lemma print_head (d : nat) (v : Json) :
  exists c tail, print d v = String c tail /\ opens_value c = true.
Proof.
  destruct v as [|[]|z|s|[|x xs]|[|kv fields]]; try (by eexists _, _).
  cbn [print]. destruct (toString_head z) as (c & tail & -> & Hc).
  exists c, tail. auto using num_char_opens.
Qed.

(** *** Printed values parse back *)

Lemma print_array (d : nat) (x : Json) (xs : list Json) (rest : string) :
  (print d (JArr (x :: xs)) ++ rest
   = "[" ++ inner d ++ join (inner d) (List.map (print (d + 2)) (x :: xs))
         ++ closes d "]" rest)%string.
Proof.
  unfold closes, inner. cbn [print].
  by rewrite <- !append_assoc.
Qed.

Lemma print_object (d : nat) (kv : string * Json) (fields : Obj) (rest : string) :
  (print d (JObj (kv :: fields)) ++ rest
   = "{" ++ inner d ++ join (inner d) (List.map (print_field d) (kv :: fields))
         ++ closes d "}" rest)%string.
Proof.
  unfold closes, inner. cbn [print].
  by rewrite <- !append_assoc.
Qed.

Lemma weight_items_cons (x : Json) (xs : list Json) :
  weight_items (x :: xs) = S (size x) + weight_items xs.
Proof. reflexivity. Qed.

Lemma weight_fields_cons (kv : string * Json) (fields : Obj) :
  weight_fields (kv :: fields) = S (size (snd kv)) + weight_fields fields.
Proof. reflexivity. Qed.

Lemma delimits_closes (d : nat) (bracket rest : string) :
  delimits (closes d bracket rest) = true.
Proof. done. Qed.

Lemma skip_ws_opens (c : ascii) (s : string) :
  opens_value c = true -> skip_ws (String c s) = String c s.
Proof.
  unfold opens_value. intros Hc. simpl.
  destruct (is_ws c); [done|done].
Qed.

Lemma starts_opens (c b : ascii) (s : string) :
  opens_value c = true ->
  b = "]"%char \/ b = "}"%char \/ b = ","%char \/ b = ":"%char ->
  starts b (String c s) = None.
Proof.
  unfold opens_value, starts. intros Hc Hb.
  repeat (apply andb_true_iff in Hc as [Hc ?]).
  destruct Hb as [->|[->|[->| ->]]];
    by match goal with H : negb (Ascii.eqb c ?x) = true |- context [Ascii.eqb c ?x] =>
      apply negb_true_iff in H; rewrite H end.
Qed.

Lemma num_char_kind (c : ascii) : is_num_char c = true -> kind_of c = KNumber.
Proof. destruct c as [[] [] [] [] [] [] [] []]; vm_compute; congruence. Qed.

(** The text of a non-empty list of members starts with its first member. *)
Lemma join_cons (sep : string) (x : string) (xs : list string) :
  join sep (x :: xs)
  = (x ++ match xs with [] => "" | _ => "," ++ sep ++ join sep xs end)%string.
Proof. destruct xs; simpl; [by rewrite append_nil_r|done]. Qed.

Lemma join_head (sep : string) (d : nat) (x : Json) (xs : list Json)
    (rest : string) :
  exists c tail,
    (join sep (List.map (print d) (x :: xs)) ++ rest)%string = String c tail
    /\ opens_value c = true.
Proof.
  destruct (print_head d x) as (c & tail & Hx & Hc).
  cbn [List.map]. rewrite join_cons, Hx. cbn [append]. by eexists _, _.
Qed.

Lemma starts_items (b : ascii) (d : nat) (x : Json) (xs : list Json)
    (rest : string) :
  b = "]"%char \/ b = "}"%char \/ b = ","%char \/ b = ":"%char ->
  starts b (skip_ws (inner d ++ join (inner d) (List.map (print (d + 2)) (x :: xs))
                       ++ rest)%string) = None.
Proof.
  intros Hb. unfold inner. rewrite append_assoc, skip_ws_inner.
  destruct (join_head (newline ++ spaces (d + 2)) (d + 2) x xs rest)
    as (c & tail & -> & Hc).
  rewrite skip_ws_opens by done. by apply starts_opens.
Qed.

Lemma fields_head (sep : string) (d : nat) (kv : string * Json)
    (fields : Obj) (rest : string) :
  (join sep (List.map (print_field d) (kv :: fields)) ++ rest)%string
  = String (ascii_of_nat 34)
      (escape (fst kv) ++ quote ++ ": " ++ print (d + 2) (snd kv)
         ++ match fields with
            | [] => ""
            | _ => "," ++ sep ++ join sep (List.map (print_field d) fields)
            end ++ rest)%string.
Proof.
  cbn [List.map]. rewrite join_cons. unfold print_field at 1, print_string.
  destruct fields; cbn [List.map]; rewrite !append_assoc; reflexivity.
Qed.

(** A name that [distinct] tells apart from the names before it is added at
    the end. *)
Lemma setProp_fresh (acc : Obj) (k : string) (v : Json) :
  existsb (String.eqb k) (List.map fst acc) = false ->
  setProp acc k v = acc ++ [(k, v)].
Proof.
  induction acc as [|[k' v'] acc IH]; simpl; [done|].
  intros [Hk Hacc]%orb_false_iff. rewrite String.eqb_sym, Hk. by rewrite IH.
Qed.

Lemma distinct_middle (before after : list string) (k : string) :
  distinct (before ++ k :: after) = true ->
  existsb (String.eqb k) before = false.
Proof.
  induction before as [|k' before IH]; simpl; [done|].
  intros [Hk' Hd]%andb_true_iff. rewrite (IH Hd), orb_false_r.
  apply negb_true_iff in Hk'. rewrite existsb_app in Hk'.
  apply orb_false_iff in Hk' as [_ Hk']. simpl in Hk'.
  apply orb_false_iff in Hk' as [Hk' _]. by rewrite String.eqb_sym.
Qed.

Lemma parse_value_print_aux (n : nat) :
  (forall v d rest,
      size v <= n -> well_formed v = true -> delimits rest = true ->
      parse_value n (print d v ++ rest)%string = Some (v, rest))
  /\ (forall items d rest,
        items <> [] -> weight_items items <= n ->
        forallb well_formed items = true ->
        parse_items n (inner d ++ join (inner d) (List.map (print (d + 2)) items)
                         ++ closes d "]" rest)%string
        = Some (items, rest))
  /\ (forall fields acc d rest,
        fields <> [] -> weight_fields fields <= n ->
        distinct (List.map fst (acc ++ fields)) = true ->
        forallb (fun kv => well_formed (snd kv)) fields = true ->
        parse_fields n acc
          (inner d ++ join (inner d) (List.map (print_field d) fields)
             ++ closes d "}" rest)%string
        = Some (acc ++ fields, rest)).
Proof.
  induction n as [|n (IHv & IHi & IHf)].
  { repeat split.
    - intros v d rest Hsize. destruct v; simpl in Hsize; lia.
    - intros [|x xs] d rest Hne Hw; [done|]. unfold weight_items in Hw.
      simpl in Hw. lia.
    - intros [|x xs] acc d rest Hne Hw; [done|]. unfold weight_fields in Hw.
      simpl in Hw. lia. }
  repeat split.
  - intros v d rest Hsize Hwf Hrest.
    destruct v as [|[]|z|s|[|x xs]|[|kv fields]]; try reflexivity.
    + (* number *)
      cbn [print].
      destruct (toString_head z) as (c & tail & Hz & Hc).
      pose proof (parse_number_toString z rest Hrest) as Hnum.
      rewrite Hz in *. cbn [append] in *. cbn [parse_value].
      rewrite skip_ws_opens by auto using num_char_opens.
      by rewrite num_char_kind, Hnum.
    + (* string *)
      destruct (print_string_parses s rest) as (body & Hbody & Hparse).
      cbn [print]. rewrite Hbody. cbn [parse_value skip_ws].
      change (is_ws (ascii_of_nat 34)) with false. cbv iota.
      change (kind_of (ascii_of_nat 34)) with KString. cbv iota.
      by rewrite Hparse.
    + (* array *)
      rewrite print_array. cbn [append parse_value skip_ws].
      change (is_ws "[") with false. cbv iota.
      change (kind_of "[") with KArray. cbv iota.
      rewrite starts_items by auto.
      rewrite IHi; [done|done| |done].
      cbn [size] in Hsize. fold (weight_items (x :: xs)) in Hsize. lia.
    + (* object *)
      rewrite print_object. cbn [append parse_value skip_ws].
      change (is_ws "{") with false. cbv iota.
      change (kind_of "{") with KObject. cbv iota.
      cbn [well_formed] in Hwf. apply andb_true_iff in Hwf as [Hkeys Hwf].
      assert (starts "}" (skip_ws (inner d ++ join (inner d)
                (List.map (print_field d) (kv :: fields)) ++ closes d "}" rest)%string)
              = None) as ->.
      { unfold inner. rewrite append_assoc, skip_ws_inner, fields_head. done. }
      rewrite IHf; [done|done| |done|done].
      cbn [size] in Hsize. fold (weight_fields (kv :: fields)) in Hsize. lia.
  - (* members of an array *)
    intros [|x xs] d rest Hne Hweight Hwf; [done|].
    cbn [forallb] in Hwf. apply andb_true_iff in Hwf as [Hx Hxs].
    rewrite weight_items_cons in Hweight.
    cbn [parse_items]. rewrite <- parse_value_skip.
    unfold inner at 1. rewrite append_assoc, skip_ws_inner, parse_value_skip.
    cbn [List.map]. rewrite join_cons, append_assoc.
    destruct xs as [|y ys].
    + cbn [List.map append].
      rewrite IHv; [|lia|done|apply delimits_closes].
      unfold closes. rewrite skip_ws_inner. done.
    + cbn [List.map]. rewrite IHv; [|lia|done|done].
      cbn [append skip_ws]. change (is_ws ",") with false. cbv iota.
      cbn [starts]. change (Ascii.eqb "," ",") with true. cbv iota.
      rewrite !append_assoc.
      pose proof (IHi (y :: ys) d rest) as Hi. cbn [List.map] in Hi.
      rewrite Hi; [done|done|lia|done].
  - (* members of an object *)
    intros [|[k v] fields] acc d rest Hne Hweight Hkeys Hwf; [done|].
    rewrite weight_fields_cons in Hweight. cbn [snd] in Hweight.
    cbn [forallb snd] in Hwf. apply andb_true_iff in Hwf as [Hv Hfs].
    assert (setProp acc k v = acc ++ [(k, v)]) as Hset.
    { apply setProp_fresh. rewrite map_app in Hkeys.
      by apply distinct_middle in Hkeys. }
    cbn [parse_fields].
    unfold inner at 1. rewrite append_assoc, skip_ws_inner, fields_head.
    cbn [skip_ws fst snd]. change (is_ws (ascii_of_nat 34)) with false. cbv iota.
    cbn [starts]. rewrite Ascii.eqb_refl, parse_chars_escape.
    cbn [append skip_ws]. change (is_ws ":") with false. cbv iota.
    cbn [starts]. change (Ascii.eqb ":" ":") with true. cbv iota.
    rewrite <- parse_value_skip. cbn [skip_ws].
    change (is_ws " ") with true. cbv iota. rewrite parse_value_skip.
    destruct fields as [|kv' fields].
    + cbn [append].
      rewrite IHv; [|lia|done|apply delimits_closes].
      unfold closes. rewrite skip_ws_inner. by rewrite Hset.
    + cbn [append]. rewrite IHv; [|lia|done|done].
      cbn [append skip_ws]. change (is_ws ",") with false. cbv iota.
      cbn [starts]. change (Ascii.eqb "," ",") with true. cbv iota.
      rewrite Hset, append_assoc.
      rewrite (IHf (kv' :: fields) (acc ++ [(k, v)]) d rest);
        [by rewrite <- app_assoc|done|lia| |done].
      by rewrite <- app_assoc.
Qed.

(** *** Enough fuel *)

Lemma join_weight (sep : string) (d : nat) (items : list Json) :
  Forall (fun x => size x <= String.length (print d x)) items ->
  weight_items items <= String.length (join sep (List.map (print d) items)) + 1.
Proof.
  induction 1 as [|x xs Hx _ IH]; [unfold weight_items; simpl; lia|].
  rewrite weight_items_cons. cbn [List.map]. rewrite join_cons, length_append.
  destruct xs as [|y ys]; [change (weight_items []) with 0; simpl; lia|].
  cbn [List.map] in *. rewrite !length_append.
  change (String.length ",") with 1. lia.
Qed.

Lemma join_weight_fields (sep : string) (d : nat) (fields : Obj) :
  Forall (fun kv => size (snd kv) <= String.length (print (d + 2) (snd kv))) fields ->
  weight_fields fields
  <= String.length (join sep (List.map (print_field d) fields)) + 1.
Proof.
  induction 1 as [|x xs Hx _ IH]; [unfold weight_fields; simpl; lia|].
  rewrite weight_fields_cons. cbn [List.map]. rewrite join_cons, length_append.
  unfold print_field at 1. rewrite !length_append.
  destruct xs as [|y ys]; [change (weight_fields []) with 0; simpl; lia|].
  cbn [List.map] in *. rewrite !length_append.
  change (String.length ",") with 1. lia.
Qed.

Lemma size_le_print (n : nat) :
  forall v d, size v <= n -> size v <= String.length (print d v).
Proof.
  induction n as [|n IH]; intros v d Hn.
  { destruct v; simpl in Hn; lia. }
  destruct v as [|[]|z|s|[|x xs]|[|kv fields]]; try (simpl; lia).
  - cbn [size print]. pose proof (toString_nonempty z).
    destruct (toString z); [done|simpl; lia].
  - pose proof (print_array d x xs "") as Hp. rewrite append_nil_r in Hp.
    rewrite Hp. cbn [size] in *. fold (weight_items (x :: xs)) in *.
    rewrite !length_append.
    pose proof (join_weight (inner d) (d + 2) (x :: xs)) as Hj.
    assert (Forall (fun y => size y <= String.length (print (d + 2) y)) (x :: xs))
      as Hall.
    { apply Forall_forall. intros y Hy. apply IH.
      assert (S (size y) <= weight_items (x :: xs)); [|lia].
      clear -Hy. induction Hy as [y l|y z l _ IHl];
        rewrite weight_items_cons; lia. }
    specialize (Hj Hall).
    assert (1 <= String.length (inner d)) by (unfold inner; simpl; lia).
    simpl String.length at 1. lia.
  - pose proof (print_object d kv fields "") as Hp. rewrite append_nil_r in Hp.
    rewrite Hp. cbn [size] in *. fold (weight_fields (kv :: fields)) in *.
    rewrite !length_append.
    pose proof (join_weight_fields (inner d) d (kv :: fields)) as Hj.
    assert (Forall (fun y => size (snd y) <= String.length (print (d + 2) (snd y)))
              (kv :: fields)) as Hall.
    { apply Forall_forall. intros y Hy. apply IH.
      assert (S (size (snd y)) <= weight_fields (kv :: fields)); [|lia].
      clear -Hy. induction Hy as [y l|y z l _ IHl];
        rewrite weight_fields_cons; lia. }
    specialize (Hj Hall).
    assert (1 <= String.length (inner d)) by (unfold inner; simpl; lia).
    simpl String.length at 1. lia.
Qed.

(** The first law: a well-formed value is read back from its text. *)
Theorem parse_stringify_id (v : Json) :
  well_formed v = true -> parse (stringify v) = Some v.
Proof.
  intros Hwf. unfold parse, stringify.
  pose proof (size_le_print (size v) v 0 (le_n _)) as Hsize.
  destruct (parse_value_print_aux (2 * String.length (print 0 v) + 2))
    as (Hv & _ & _).
  specialize (Hv v 0 "").
  rewrite append_nil_r in Hv. rewrite Hv; [done|lia|done|done].
Qed.

(** *** What is parsed is well formed *)

Lemma setProp_keys (acc : Obj) (k : string) (v : Json) :
  List.map fst (setProp acc k v)
  = if existsb (String.eqb k) (List.map fst acc) then List.map fst acc
    else List.map fst acc ++ [k].
Proof.
  induction acc as [|[k' v'] acc IH]; simpl; [done|].
  rewrite (String.eqb_sym k k').
  destruct (String.eqb_spec k' k) as [->|Hne]; simpl; [done|].
  rewrite IH. by destruct (existsb (String.eqb k) (List.map fst acc)).
Qed.

Lemma distinct_snoc (keys : list string) (k : string) :
  distinct keys = true -> existsb (String.eqb k) keys = false ->
  distinct (keys ++ [k]) = true.
Proof.
  induction keys as [|k' keys IH]; simpl; [done|].
  intros [Hk' Hd]%andb_true_iff [Hne Hk]%orb_false_iff.
  rewrite IH by done. rewrite existsb_app. simpl.
  apply negb_true_iff in Hk'. by rewrite Hk', String.eqb_sym, Hne.
Qed.

Lemma setProp_well_formed (acc : Obj) (k : string) (v : Json) :
  well_formed_fields acc = true -> well_formed v = true ->
  well_formed_fields (setProp acc k v) = true.
Proof.
  unfold well_formed_fields. intros [Hd Hall]%andb_true_iff Hv.
  apply andb_true_iff. split.
  - rewrite setProp_keys.
    destruct (existsb (String.eqb k) (List.map fst acc)) eqn:E; [done|].
    by apply distinct_snoc.
  - clear Hd. induction acc as [|[k' v'] acc IH]; simpl in *.
    + by rewrite Hv.
    + apply andb_true_iff in Hall as [Hv' Hall].
      destruct (String.eqb k' k); simpl; rewrite ?Hv, ?Hv', ?Hall; auto.
Qed.

Lemma parse_well_formed_aux (n : nat) :
  (forall s v r, parse_value n s = Some (v, r) -> well_formed v = true)
  /\ (forall s vs r, parse_items n s = Some (vs, r) ->
                     forallb well_formed vs = true)
  /\ (forall acc s fields r,
        parse_fields n acc s = Some (fields, r) ->
        well_formed_fields acc = true -> well_formed_fields fields = true).
Proof.
  induction n as [|n (IHv & IHi & IHf)]; [by repeat split|].
  repeat split.
  - intros s v r. cbn [parse_value].
    destruct (skip_ws s) as [|c rest]; [done|].
    destruct (kind_of c); unfold expect.
    + destruct (strip _ _); [|done]. by intros [= <- _].
    + destruct (strip _ _); [|done]. by intros [= <- _].
    + destruct (strip _ _); [|done]. by intros [= <- _].
    + destruct (parse_chars rest) as [[str r']|]; [|done]. by intros [= <- _].
    + destruct (starts "]" (skip_ws rest)); [by intros [= <- _]|].
      destruct (parse_items n rest) as [[items r']|] eqn:Hi; [|done].
      intros [= <- _]. cbn [well_formed]. by eapply IHi.
    + destruct (starts "}" (skip_ws rest)); [by intros [= <- _]|].
      destruct (parse_fields n [] rest) as [[fields r']|] eqn:Hf; [|done].
      intros [= <- _]. cbn [well_formed].
      by apply (IHf [] rest fields r' Hf).
    + destruct (parse_number _) as [[z r']|]; [|done]. by intros [= <- _].
  - intros s vs r. cbn [parse_items].
    destruct (parse_value n s) as [[v r0]|] eqn:Hv; [|done].
    apply IHv in Hv.
    destruct (starts "," (skip_ws r0)) as [r1|].
    + destruct (parse_items n r1) as [[vs' r2]|] eqn:Hi; [|done].
      intros [= <- _]. cbn [forallb]. rewrite Hv. by eapply IHi.
    + destruct (starts "]" (skip_ws r0)); [|done].
      intros [= <- _]. cbn [forallb]. by rewrite Hv.
  - intros acc s fields r. cbn [parse_fields].
    destruct (starts _ (skip_ws s)) as [r0|]; [|done].
    destruct (parse_chars r0) as [[k r1]|]; [|done].
    destruct (starts ":" (skip_ws r1)) as [r2|]; [|done].
    destruct (parse_value n r2) as [[v r3]|] eqn:Hv; [|done].
    apply IHv in Hv. intros Hrun Hacc.
    pose proof (setProp_well_formed acc k v Hacc Hv) as Hacc'.
    destruct (starts "," (skip_ws r3)) as [r4|].
    + by eapply IHf.
    + destruct (starts "}" (skip_ws r3)); [|done]. by injection Hrun as <- _.
Qed.

(** The second law: [parse] returns well-formed values only. *)
Theorem parse_gives_well_formed (s : string) (v : Json) :
  parse s = Some v -> well_formed v = true.
Proof.
  unfold parse.
  destruct (parse_value _ s) as [[v' r]|] eqn:Hv; [|done].
  destruct (skip_ws r); [|done]. intros [= <-].
  by eapply (proj1 (parse_well_formed_aux _)).
Qed.

#[export] Instance laws : @CodecLaws codec.
Proof.
  split; [apply parse_gives_well_formed|apply parse_stringify_id].
Qed.

End JsonTextLaws.

(** * Further properties of the handlers

    What follows is read off the handlers beyond the statements above: how
    each route answers at the edges of its input and of the data file, what
    a request can never do, and how requests compose. *)

(** ** Every path of every handler *)

Section Answers.
Context `{Codec}.

Ltac run :=
  unfold get_todos, post_todos, put_todo, delete_todo, try_catch, bind, lift,
    ret, collection, as_array in *; cbn [fst snd].

Ltac log_step Hrun :=
  match type of Hrun with
  | context [log ?env ?m ?fs] =>
      let Hl := fresh "Hl" in
      let e := fresh "e" in
      destruct (log_cases env m fs) as [Hl|[e Hl]]; rewrite Hl in Hrun
  end.

(** The answers of update, each with the reason the code has for it. *)
Lemma put_todo_cases
    (env : Env) (id : string) (req_body : Obj) (fs fs' : FS)
    (o : Outcome Response) :
  put_todo env id req_body fs = (o, fs') ->
  (o = Ret (respond 404 (error_body "Todo not found")) /\ fs' = fs
   /\ exists todos, readTodos fs = (Ret (JArr todos), fs)
                    /\ findIndex (has_id id) todos = Ret None)
  \/ (o = Ret (respond 400 (error_body "Todo text cannot be empty")) /\ fs' = fs
      /\ exists s, getProp req_body "text" = Some (JStr s) /\ trim s = "")
  \/ (o = Ret (respond 500 (error_body "Failed to update todo")) /\ fs' = fs)
  \/ (exists it', o = Ret (respond 200 (JObj it')) /\ writable fs = true).
Proof.
  intros Hput. run.
  assert (forall fs0, (Ret (respond 500 (error_body "Failed to update todo")), fs0)
                      = (o, fs') -> fs0 = fs ->
            o = Ret (respond 500 (error_body "Failed to update todo")) /\ fs' = fs)
    as H500 by (by intros fs0 [= <- <-] ->).
  destruct (readTodos_total fs) as [todos Hread]. rewrite Hread in Hput.
  destruct todos as [| | | |todos|];
    try (right; right; left; by eapply H500).
  destruct (findIndex (has_id id) todos) as [[i|]|] eqn:Hfind;
    [|left; injection Hput as <- <-; eauto
     |right; right; left; by eapply H500].
  destruct (findIndex_found _ _ _ Hfind)
    as (before & it & after & -> & <- & Hid & Hb).
  assert (forall o : Obj,
    (before ++ JObj o :: after) !! length before = Some (JObj o)) as Hat
    by (intros; by apply list_lookup_middle).
  destruct (getProp req_body "text") as [v|] eqn:Htext.
  - destruct v as [| | |s| |]; cbn [call_trim] in Hput;
      try (right; right; left; by eapply H500).
    destruct (String.eqb_spec (trim s) "") as [Hblank|Hblank];
      [right; left; injection Hput as <- <-; eauto|].
    log_step Hput; [|right; right; left; by eapply H500].
    rewrite assign_middle in Hput.
    destruct (getProp req_body "completed") as [c|].
    + log_step Hput; [|right; right; left; by eapply H500].
      log_step Hput; [|right; right; left; by eapply H500].
      rewrite !assign_middle in Hput. unfold writeTodos, writeFile in Hput.
      destruct (writable fs) eqn:Hw; [|right; right; left; by eapply H500].
      rewrite Hat in Hput. injection Hput as <- <-. right; right; right. eauto.
    + rewrite !assign_middle in Hput. unfold writeTodos, writeFile in Hput.
      destruct (writable fs) eqn:Hw; [|right; right; left; by eapply H500].
      rewrite Hat in Hput. injection Hput as <- <-. right; right; right. eauto.
  - destruct (getProp req_body "completed") as [c|].
    + log_step Hput; [|right; right; left; by eapply H500].
      log_step Hput; [|right; right; left; by eapply H500].
      rewrite !assign_middle in Hput. unfold writeTodos, writeFile in Hput.
      destruct (writable fs) eqn:Hw; [|right; right; left; by eapply H500].
      rewrite Hat in Hput. injection Hput as <- <-. right; right; right. eauto.
    + rewrite !assign_middle in Hput. unfold writeTodos, writeFile in Hput.
      destruct (writable fs) eqn:Hw; [|right; right; left; by eapply H500].
      rewrite Hat in Hput. injection Hput as <- <-. right; right; right. eauto.
Qed.

(** The log line of the text either passes or, with logging on, throws on a
    text that cannot be printed. *)
Lemma log_interpolate_cases (env : Env) (v : option Json) (fs : FS) :
  log env (interpolate v) fs = (Ret tt, fs)
  \/ exists e x, log env (interpolate v) fs = (Throw e, fs)
                 /\ logging env = true /\ v = Some x /\ printable x = false.
Proof.
  unfold log, interpolate, lift, ret.
  destruct (logging env); [|by left]. destruct v as [x|]; [|by left].
  destruct (printable x) eqn:Hp; [by left|right]. by eexists _, x.
Qed.

Lemma post_todos_cases
    (env : Env) (req_body : Obj) (fs fs' : FS) (o : Outcome Response) :
  post_todos env req_body fs = (o, fs') ->
  (exists e v, o = Throw e /\ fs' = fs /\ logging env = true
               /\ getProp req_body "text" = Some v /\ printable v = false)
  \/ (o = Ret (respond 400 (error_body "Todo text is required")) /\ fs' = fs
      /\ (truthy (getProp req_body "text") = false
          \/ exists s, getProp req_body "text" = Some (JStr s) /\ trim s = ""))
  \/ (o = Ret (respond 500 (error_body "Failed to create todo")) /\ fs' = fs)
  \/ (exists it, o = Ret (respond 201 (JObj it)) /\ writable fs = true).
Proof.
  intros Hpost. run.
  assert (forall fs0, (Ret (respond 500 (error_body "Failed to create todo")), fs0)
                      = (o, fs') -> fs0 = fs ->
            o = Ret (respond 500 (error_body "Failed to create todo")) /\ fs' = fs)
    as H500 by (by intros fs0 [= <- <-] ->).
  destruct (log_interpolate_cases env (getProp req_body "text") fs)
    as [Hl|(e & v & Hl & Hlog & Htext & Hp)]; rewrite Hl in Hpost;
    [|left; injection Hpost as <- <-; by exists e, v].
  destruct (getProp req_body "text") as [v|] eqn:Htext.
  2: (cbn [truthy negb] in Hpost; injection Hpost as <- <-;
            right; left; by eauto).
  destruct (truthy (Some v)) eqn:Htruthy; cbn [negb] in Hpost;
    [|injection Hpost as <- <-; right; left; by eauto].
  destruct v as [| | |s| |]; cbn [call_trim] in Hpost;
    try (right; right; left; by eapply H500).
  destruct (String.eqb_spec (trim s) "") as [Hblank|Hblank];
    [injection Hpost as <- <-; right; left; by eauto 6|].
  destruct (readTodos_total fs) as [todos Hread]; rewrite Hread in Hpost.
  destruct todos as [| | | |todos|];
    try (right; right; left; by eapply H500).
  unfold writeTodos, writeFile in Hpost.
  destruct (writable fs) eqn:Hw; [|right; right; left; by eapply H500].
  injection Hpost as <- <-; right; right; right; by eauto.
Qed.

Lemma delete_todo_cases (id : string) (fs fs' : FS) (o : Outcome Response) :
  delete_todo id fs = (o, fs') ->
  (o = Ret (respond 404 (error_body "Todo not found")) /\ fs' = fs
   /\ exists todos, readTodos fs = (Ret (JArr todos), fs)
                    /\ findIndex (has_id id) todos = Ret None)
  \/ (o = Ret (respond 500 (error_body "Failed to delete todo")) /\ fs' = fs)
  \/ (exists v, o = Ret (respond 200 v) /\ writable fs = true).
Proof.
  intros Hdel. run.
  assert (forall fs0, (Ret (respond 500 (error_body "Failed to delete todo")), fs0)
                      = (o, fs') -> fs0 = fs ->
            o = Ret (respond 500 (error_body "Failed to delete todo")) /\ fs' = fs)
    as H500 by (by intros fs0 [= <- <-] ->).
  destruct (readTodos_total fs) as [todos Hread]. rewrite Hread in Hdel.
  destruct todos as [| | | |todos|]; try (right; left; by eapply H500).
  destruct (findIndex (has_id id) todos) as [[i|]|] eqn:Hfind;
    [|left; injection Hdel as <- <-; eauto|right; left; by eapply H500].
  unfold writeTodos, writeFile in Hdel.
  destruct (writable fs) eqn:Hw; [|right; left; by eapply H500].
  injection Hdel as <- <-. right; right. eauto.
Qed.

Lemma get_todos_cases (env : Env) (fs : FS) (todos : Json) :
  readTodos fs = (Ret todos, fs) ->
  get_todos env fs = (Ret (respond 200 todos), fs)
  \/ (get_todos env fs
      = (Ret (respond 500 (error_body "Failed to fetch todos")), fs)
      /\ logging env = true /\ forall items, todos <> JArr items).
Proof.
  intros Hread. run. rewrite Hread. unfold log, lift, ret.
  destruct (logging env); [|by left].
  destruct todos as [| | | | |o]; try by left.
  - right. by repeat split.
  - destruct (interpolate (getProp o "length")) as [[]|]; [by left|right].
    by repeat split.
Qed.

(** X1. Every answer of a handler is one of those of its route: 200 or the
    one 500 for a listing; 201, the one 400 or the one 500 for create; 200,
    the one 400, the one 404 or the one 500 for update; 200, the one 404 or
    the one 500 for delete.  Each failure carries the body [{error: msg}]
    with the message of its route. *)
Theorem answers_are_documented
    (env : Env) (req : Request) (fs fs' : FS) (r : Response) :
  handle env req fs = (Ret r, fs') -> documented req r.
Proof.
  destruct req as [|req_body|id req_body|id]; cbn [handle documented]; intros Hrun.
  - destruct (readTodos_total fs) as [todos Hread].
    destruct (get_todos_cases env fs todos Hread) as [Hget|[Hget _]];
      rewrite Hget in Hrun; injection Hrun as <- _; cbn; auto.
  - apply post_todos_cases in Hrun
      as [(e & v & [=] & _)|[([= ->] & _)|[([= ->] & _)|(it & [= ->] & _)]]]; cbn; auto.
  - apply put_todo_cases in Hrun
      as [([= ->] & _)|[([= ->] & _)|[([= ->] & _)|(it & [= ->] & _)]]]; cbn; auto.
  - apply delete_todo_cases in Hrun
      as [([= ->] & _)|[([= ->] & _)|(v & [= ->] & _)]]; cbn; auto.
Qed.

(** X2. A request goes unanswered (the handler throws past its own [catch])
    exactly when it is a create, logging is on, and the text of the request
    cannot be printed by the log line in front of the [try].  Listing, update
    and delete answer always. *)
Theorem unanswered_iff (env : Env) (req : Request) (fs : FS) :
  (exists e fs', handle env req fs = (Throw e, fs'))
  <-> exists req_body v,
        req = Create req_body /\ logging env = true
        /\ getProp req_body "text" = Some v /\ printable v = false.
Proof.
  split.
  - intros (e & fs' & Hrun).
    destruct req as [|req_body|id req_body|id]; cbn [handle] in Hrun.
    + destruct (get_todos_inv env fs) as [r Hr]. by rewrite Hr in Hrun.
    + apply post_todos_cases in Hrun
        as [(e' & v & _ & _ & Hlog & Htext & Hp)
           |[([=] & _)|[([=] & _)|(it & [=] & _)]]].
      by exists req_body, v.
    + apply put_todo_cases in Hrun
        as [([=] & _)|[([=] & _)|[([=] & _)|(it & [=] & _)]]].
    + apply delete_todo_cases in Hrun
        as [([=] & _)|[([=] & _)|(v & [=] & _)]].
  - intros (req_body & v & -> & Hlog & Htext & Hp). cbn [handle].
    destruct (post_unprintable_text_throws env req_body fs v Hlog Htext Hp)
      as [e He].
    by exists e, fs.
Qed.

(** X3. A request that is not answered with a success (an answer with a
    status of 400 or more, or no answer at all) leaves the data file exactly
    as it was, whatever the request and whatever the file holds. *)
Theorem failure_writes_nothing
    (env : Env) (req : Request) (fs fs' : FS) (o : Outcome Response) :
  handle env req fs = (o, fs') ->
  (forall r, o = Ret r -> 400 <= status r) ->
  fs' = fs.
Proof.
  destruct req as [|req_body|id req_body|id]; cbn [handle]; intros Hrun Hfail.
  - destruct (get_todos_inv env fs) as [r Hr]. rewrite Hr in Hrun.
    by injection Hrun as _ <-.
  - apply post_todos_cases in Hrun
      as [(e' & v & _ & -> & _)|[(_ & -> & _)|[(_ & ->)|(it & -> & _)]]];
      try done.
    specialize (Hfail _ eq_refl). cbn in Hfail. lia.
  - apply put_todo_cases in Hrun
      as [(_ & -> & _)|[(_ & -> & _)|[(_ & ->)|(it & -> & _)]]]; try done.
    specialize (Hfail _ eq_refl). cbn in Hfail. lia.
  - apply delete_todo_cases in Hrun
      as [(_ & -> & _)|[(_ & ->)|(v & -> & _)]]; try done.
    specialize (Hfail _ eq_refl). cbn in Hfail. lia.
Qed.


(** X4. A listing on a data file that is absent, that cannot be read, or
    whose text is not JSON answers 200 with the empty array, and leaves the
    file as it is: it is not created and not repaired. *)
Theorem listing_fails_open (env : Env) (fs : FS) :
  (contents fs = None \/ readable fs = false
   \/ exists data, contents fs = Some data /\ JSON_parse data = None) ->
  get_todos env fs = (Ret (respond 200 (JArr [])), fs).
Proof.
  intros Hbad. apply get_todos_array. unfold readTodos, readFile.
  destruct Hbad as [->|[Hr|(data & -> & Hparse)]]; [done| |].
  - rewrite Hr. by destruct (contents fs).
  - destruct (readable fs); [|done]. by rewrite Hparse.
Qed.

(** X5. With logging off ([NODE_ENV] is "test") a listing answers 200 with
    whatever value the data file parses to, array or not.  With logging on,
    the log line reads [todos.length], so a file that holds [null] is
    answered 500 "Failed to fetch todos".  The file is untouched either
    way. *)
Theorem listing_depends_on_logging (env : Env) (fs : FS) (todos : Json) :
  readTodos fs = (Ret todos, fs) ->
  (logging env = false -> get_todos env fs = (Ret (respond 200 todos), fs))
  /\ (logging env = true -> todos = JNull ->
      get_todos env fs
      = (Ret (respond 500 (error_body "Failed to fetch todos")), fs)).
Proof.
  intros Hread. split.
  - intros Hlog. destruct (get_todos_cases env fs todos Hread)
      as [Hget|(_ & Hon & _)]; [done|congruence].
  - intros Hlog ->. run. rewrite Hread. unfold log. by rewrite Hlog.
Qed.

(** X6. When the data file cannot be written, a request that is valid
    otherwise is answered with the 500 of its route and the file stays as it
    was: a create with a text that is not blank, an update of a known id
    whose text, if it is a string, is not blank, and a delete of a known
    id. *)
Theorem refused_write_is_a_500 (env : Env) (fs : FS) (items : list Obj) :
  readTodos fs = (Ret (collection items), fs) ->
  writable fs = false ->
  (forall req_body s,
     getProp req_body "text" = Some (JStr s) -> blank s = false ->
     post_todos env req_body fs
     = (Ret (respond 500 (error_body "Failed to create todo")), fs))
  /\ (forall id req_body,
        known id items ->
        (forall s, getProp req_body "text" = Some (JStr s) -> blank s = false) ->
        put_todo env id req_body fs
        = (Ret (respond 500 (error_body "Failed to update todo")), fs))
  /\ (forall id,
        known id items ->
        delete_todo id fs
        = (Ret (respond 500 (error_body "Failed to delete todo")), fs)).
Proof.
  intros Hread Hw.
  assert (forall id todos,
            known id items -> readTodos fs = (Ret (JArr todos), fs) ->
            findIndex (has_id id) todos <> Ret None) as Hfound.
  { intros id todos Hknown Hread'. rewrite Hread in Hread'.
    injection Hread' as <-.
    destruct (known_split _ _ Hknown) as (before & it & after & -> & Hid & Hb).
    by rewrite (findIndex_known id before after it Hid Hb). }
  repeat split.
  - intros req_body s Htext Hblank.
    destruct (post_todos env req_body fs) as [o fs'] eqn:Hpost.
    apply post_todos_cases in Hpost
      as [(e & v & _ & _ & _ & Htext' & Hp)
         |[(_ & _ & [Hfalsy|(s' & Htext' & Hempty)])
          |[(-> & ->)|(it & _ & Hw')]]];
      [| | |done|congruence].
    + rewrite Htext in Htext'. injection Htext' as <-. done.
    + rewrite Htext in Hfalsy. cbn in Hfalsy.
      destruct (String.eqb_spec s ""); [by subst|done].
    + rewrite Htext in Htext'. injection Htext' as <-.
      apply trim_empty_iff in Hempty. congruence.
  - intros id req_body Hknown Htext.
    destruct (put_todo env id req_body fs) as [o fs'] eqn:Hput.
    apply put_todo_cases in Hput
      as [(_ & _ & todos & Hread' & Hnone)
         |[(_ & _ & s & Htext' & Hempty)
          |[(-> & ->)|(it & _ & Hw')]]];
      [| |done|congruence].
    + by destruct (Hfound id todos).
    + apply trim_empty_iff in Hempty. by rewrite (Htext s) in Hempty.
  - intros id Hknown.
    destruct (delete_todo id fs) as [o fs'] eqn:Hdel.
    apply delete_todo_cases in Hdel
      as [(_ & _ & todos & Hread' & Hnone)|[(-> & ->)|(v & _ & Hw')]];
      [|done|congruence].
    by destruct (Hfound id todos).
Qed.

(** X7. When the data file holds JSON that is not an array, every update
    and every delete is answered with the 500 of its route, and so is a
    create with a text that is not blank ([findIndex] and [push] exist on
    arrays only).  The file is left as it is. *)
Theorem non_array_store_is_a_500 (env : Env) (fs : FS) (todos : Json) :
  readTodos fs = (Ret todos, fs) ->
  (forall items, todos <> JArr items) ->
  (forall req_body s,
     getProp req_body "text" = Some (JStr s) -> blank s = false ->
     post_todos env req_body fs
     = (Ret (respond 500 (error_body "Failed to create todo")), fs))
  /\ (forall id req_body,
        put_todo env id req_body fs
        = (Ret (respond 500 (error_body "Failed to update todo")), fs))
  /\ (forall id,
        delete_todo id fs
        = (Ret (respond 500 (error_body "Failed to delete todo")), fs)).
Proof.
  intros Hread Hshape. repeat split.
  - intros req_body s Htext Hblank. run.
    rewrite log_printable by (right; rewrite Htext; by intros x [= <-]).
    rewrite Htext. cbn [truthy call_trim].
    assert (String.eqb s "" = false) as ->.
    { destruct (String.eqb_spec s ""); [by subst|done]. }
    cbn [negb].
    destruct (String.eqb_spec (trim s) "") as [Hempty%trim_empty_iff|_];
      [congruence|].
    rewrite Hread. destruct todos; try done. by destruct (Hshape items).
  - intros id req_body. run. rewrite Hread.
    destruct todos; try done. by destruct (Hshape items).
  - intros id. run. rewrite Hread.
    destruct todos; try done. by destruct (Hshape items).
Qed.

(** X8. A text that is falsy ([null], [false], [0], the empty string) is
    treated differently by the two routes.  Create answers 400 "Todo text is
    required".  Update tests [text !== undefined] only and then trims: when
    the falsy text is not a string and the id is known, trimming throws and
    the answer is 500 "Failed to update todo".  Neither writes. *)
Theorem falsy_text_create_400_update_500
    (env : Env) (req_body : Obj) (fs : FS) (v : Json) :
  getProp req_body "text" = Some v ->
  truthy (Some v) = false ->
  post_todos env req_body fs
  = (Ret (respond 400 (error_body "Todo text is required")), fs)
  /\ ((forall s, v <> JStr s) ->
      forall id items,
        readTodos fs = (Ret (collection items), fs) ->
        known id items ->
        put_todo env id req_body fs
        = (Ret (respond 500 (error_body "Failed to update todo")), fs)).
Proof.
  intros Htext Hfalsy. split.
  - run. rewrite log_printable.
    + by rewrite Htext, Hfalsy.
    + right. rewrite Htext. intros x [= <-]. by destruct v.
  - intros Hnostr id items Hread Hknown.
    destruct (known_split _ _ Hknown) as (before & it & after & -> & Hid & Hb).
    run. rewrite Hread, (findIndex_known id before after it Hid Hb), Htext.
    destruct v; cbn [call_trim]; try done. by destruct (Hnostr s).
Qed.

Lemma findIndex_null (id : string) (before after : list Json) :
  Forall (fun x => has_id id x = Ret false) before ->
  exists e, findIndex (has_id id) (before ++ JNull :: after) = Throw e.
Proof.
  intros Hb. induction Hb as [|x before Hx _ [e IH]]; simpl; [eauto|].
  rewrite Hx, IH. eauto.
Qed.

(** X9. A [null] element of the stored array that stands in front of every
    holder of the id makes update and delete answer the 500 of their route:
    the scan reads [todo.id] of each element in turn, which throws on
    [null].  The file is left as it is. *)
Theorem null_element_is_a_500
    (env : Env) (id : string) (req_body : Obj) (fs : FS)
    (before after : list Json) :
  readTodos fs = (Ret (JArr (before ++ JNull :: after)), fs) ->
  Forall (fun x => has_id id x = Ret false) before ->
  put_todo env id req_body fs
  = (Ret (respond 500 (error_body "Failed to update todo")), fs)
  /\ delete_todo id fs
     = (Ret (respond 500 (error_body "Failed to delete todo")), fs).
Proof.
  intros Hread Hb. destruct (findIndex_null id before after Hb) as [e He].
  split; run; by rewrite Hread, He.
Qed.

(** X10. Take a collection whose Items all have a text that is a non-empty
    string in trimmed form.  Every request, whatever it carries, leaves the
    file alone or writes a collection with the same property: create and
    update store the trimmed text and refuse a text that trims to the empty
    string, and a text that is not a string never reaches the file. *)
Theorem text_stays_trimmed
    (env : Env) (req : Request) (fs : FS) (items : list Obj) :
  readTodos fs = (Ret (collection items), fs) ->
  Forall text_is_trimmed items ->
  snd (handle env req fs) = fs
  \/ exists items',
       Forall text_is_trimmed items'
       /\ snd (handle env req fs)
          = mkFS (Some (JSON_stringify (collection items'))) (readable fs) true.
Proof.
  intros Hread Hinv.
  destruct (handle env req fs) as [o fs'] eqn:Hrun. cbn [snd].
  destruct req as [|req_body|id req_body|id]; cbn [handle] in Hrun.
  - destruct (get_todos_inv env fs) as [r Hr]. rewrite Hr in Hrun.
    injection Hrun as _ <-. by left.
  - apply post_todos_inv in Hrun
      as [[-> _]|(todos & s & Hread' & _ & Hs & _ & _ & ->)]; [by left|].
    rewrite Hread in Hread'. injection Hread' as <-. right.
    exists (items ++ [[("id", JStr (generateId env)); ("text", JStr (trim s));
                       ("completed", JBool false);
                       ("createdAt", JStr (toISOString env))]]).
    split.
    + apply Forall_app. split; [done|].
      apply Forall_singleton. exists (trim s). by rewrite trim_idem.
    + unfold collection. by rewrite fmap_app.
  - apply put_todo_inv in Hrun
      as [[-> _]|(before & it & after & it' & Hread' & _ & _ & _ & _ & -> & Hit' & Hs)];
      [by left|].
    rewrite Hread in Hread'. injection Hread' as Hsplit.
    destruct (collection_split items before after it) as (b & a & -> & -> & ->);
      [unfold collection; by rewrite Hsplit|].
    right. exists (b ++ it' :: a). split.
    + apply Forall_app in Hinv as [Hb [Hit Ha]%Forall_cons].
      apply Forall_app. split; [done|]. apply Forall_cons. split; [|done].
      unfold text_is_trimmed. subst it'.
      rewrite getProp_setProp_ne by done.
      destruct (getProp req_body "text") as [v|].
      * destruct Hs as (s & -> & Hs). exists (trim s).
        rewrite trim_idem. repeat split; [|done].
        destruct (getProp req_body "completed");
          rewrite ?getProp_setProp_ne by done; apply getProp_setProp_eq.
      * destruct (getProp req_body "completed");
          by rewrite ?getProp_setProp_ne by done.
    + unfold collection. by rewrite fmap_app, fmap_cons.
  - apply delete_todo_inv in Hrun
      as [[-> _]|(before & it & after & Hread' & _ & _ & _ & _ & ->)];
      [by left|].
    rewrite Hread in Hread'. injection Hread' as Hsplit.
    destruct (collection_split items before after it) as (b & a & -> & -> & ->);
      [unfold collection; by rewrite Hsplit|].
    right. exists (b ++ a). split.
    + apply Forall_app in Hinv as [Hb [Hit Ha]%Forall_cons].
      by apply Forall_app.
    + unfold collection. by rewrite fmap_app.
Qed.

End Answers.

(** ** Requests in sequence

    These statements read the file back after a write, so they are about
    codecs that parse back what they print. *)

Section Sequences.
Context `{CodecLaws}.

Ltac run :=
  unfold get_todos, post_todos, put_todo, delete_todo, try_catch, bind, lift,
    ret, collection, as_array in *; cbn [fst snd].

(** The file a handler has just written reads back as the value written. *)
Lemma read_back (todos : Json) (fs : FS) :
  readable fs = true ->
  well_formed todos = true ->
  let fs' := mkFS (Some (JSON_stringify todos)) (readable fs) true in
  readTodos fs' = (Ret todos, fs').
Proof.
  intros Hr Hwf. apply read_after_write; [done|]. by apply JSON_parse_stringify.
Qed.

Lemma read_written (todos : Json) :
  well_formed todos = true ->
  let fs' := mkFS (Some (JSON_stringify todos)) true true in
  readTodos fs' = (Ret todos, fs').
Proof. intros Hwf. exact (read_back todos (mkFS None true true) eq_refl Hwf). Qed.

Lemma well_formed_middle (before after : list Json) (x : Json) :
  well_formed (JArr (before ++ x :: after))
  = well_formed x && well_formed (JArr (before ++ after)).
Proof.
  cbn [well_formed]. rewrite !forallb_app. cbn [forallb].
  destruct (forallb well_formed before), (well_formed x); simpl; auto.
Qed.

Lemma well_formed_getProp (o : Obj) (k : string) (v : Json) :
  well_formed (JObj o) = true -> getProp o k = Some v -> well_formed v = true.
Proof.
  cbn [well_formed]. intros [_ Hall]%andb_true_iff.
  induction o as [|[k' v'] o IH]; simpl in *; [done|].
  apply andb_true_iff in Hall as [Hv' Hall].
  destruct (String.eqb k' k); [by intros [= <-]|auto].
Qed.

Lemma well_formed_setProp (o : Obj) (k : string) (v : Json) :
  well_formed (JObj o) = true -> well_formed v = true ->
  well_formed (JObj (setProp o k v)) = true.
Proof. apply JsonTextLaws.setProp_well_formed. Qed.


(** The first holder of an id splits an array in one way only. *)
Lemma first_holder_unique
    (id : string) (b1 a1 b2 a2 : list Json) (o1 o2 : Obj) :
  b1 ++ JObj o1 :: a1 = b2 ++ JObj o2 :: a2 ->
  Forall (fun x => has_id id x = Ret false) b1 ->
  Forall (fun x => has_id id x = Ret false) b2 ->
  getProp o1 "id" = Some (JStr id) ->
  getProp o2 "id" = Some (JStr id) ->
  b1 = b2 /\ o1 = o2 /\ a1 = a2.
Proof.
  intros Heq Hb1 Hb2 Ho1 Ho2.
  pose proof (findIndex_first id b1 a1 o1 Hb1 Ho1) as H1.
  pose proof (findIndex_first id b2 a2 o2 Hb2 Ho2) as H2.
  rewrite Heq, H2 in H1. injection H1 as Hlen.
  apply app_inj_1 in Heq as [-> [= -> ->]]; done.
Qed.


(** X12. After the delete of an id that one Item carries, a listing returns
    the other Items in their order, and a second delete and any update of
    that id are answered 404 "Todo not found" without a write. *)
Theorem deleted_id_is_gone
    (env : Env) (id : string) (fs : FS) (before after : list Obj) (it : Obj) :
  readTodos fs = (Ret (collection (before ++ it :: after)), fs) ->
  readable fs = true ->
  writable fs = true ->
  getProp it "id" = Some (JStr id) ->
  (forall x, x ∈ before ++ after -> getProp x "id" <> Some (JStr id)) ->
  let fs' := snd (delete_todo id fs) in
  get_todos env fs' = (Ret (respond 200 (collection (before ++ after))), fs')
  /\ delete_todo id fs'
     = (Ret (respond 404 (error_body "Todo not found")), fs')
  /\ forall req_body,
       put_todo env id req_body fs'
       = (Ret (respond 404 (error_body "Todo not found")), fs').
Proof.
  intros Hread Hr Hw Hid Hone fs'.
  assert (readTodos fs' = (Ret (collection (before ++ after)), fs')) as Hread'.
  { subst fs'. rewrite (delete_todo_ok id fs before after it); try done.
    - cbn [snd]. apply read_back; [done|].
      pose proof (readTodos_well_formed fs _ Hread) as Hwf.
      unfold collection in *. rewrite fmap_app, fmap_cons in Hwf.
      rewrite well_formed_middle in Hwf.
      apply andb_true_iff in Hwf as [_ Hwf]. by rewrite fmap_app.
    - intros x Hx. apply Hone. apply elem_of_app. by left. }
  repeat split.
  - by apply get_todos_array.
  - run. by rewrite Hread', (findIndex_unknown id _ Hone).
  - intros req_body. run. by rewrite Hread', (findIndex_unknown id _ Hone).
Qed.

(** X13. Create followed by the delete of the created id restores the
    collection, when no Item carried that id before: the delete answers 200
    with the very Item that create answered, the file then holds the
    serialisation of the collection as it was read at the start, and reading
    it returns that collection. *)
Theorem create_then_delete_restores
    (env : Env) (req_body : Obj) (fs : FS) (items : list Obj) (s : string) :
  readTodos fs = (Ret (collection items), fs) ->
  readable fs = true ->
  writable fs = true ->
  getProp req_body "text" = Some (JStr s) ->
  blank s = false ->
  (forall x, x ∈ items -> getProp x "id" <> Some (JStr (generateId env))) ->
  let fs1 := snd (post_todos env req_body fs) in
  let fs2 := snd (delete_todo (generateId env) fs1) in
  (exists created,
     fst (post_todos env req_body fs) = Ret (respond 201 created)
     /\ fst (delete_todo (generateId env) fs1)
        = Ret (respond 200 (JObj [("message", JStr "Todo deleted successfully");
                                  ("todo", created)])))
  /\ fs2 = mkFS (Some (JSON_stringify (collection items))) true true
  /\ readTodos fs2 = (Ret (collection items), fs2).
Proof.
  intros Hread Hr Hw Htext Hblank Hfresh fs1 fs2.
  assert (trim s <> "") as Htrim.
  { intros Hempty%trim_empty_iff. congruence. }
  pose proof (readTodos_well_formed fs _ Hread) as Hwf.
  set (it := [("id", JStr (generateId env)); ("text", JStr (trim s));
              ("completed", JBool false);
              ("createdAt", JStr (toISOString env))]).
  assert (post_todos env req_body fs
          = (Ret (respond 201 (JObj it)),
             mkFS (Some (JSON_stringify (collection (items ++ [it]))))
               (readable fs) true)) as Hpost.
  { rewrite (post_todos_ok env req_body fs (JObj <$> items) s) by done.
    unfold collection. by rewrite fmap_app. }
  assert (readTodos fs1 = (Ret (collection (items ++ [it])), fs1)) as Hread1.
  { subst fs1. rewrite Hpost. cbn [snd]. apply read_back; [done|].
    unfold collection in *. rewrite fmap_app. cbn [well_formed] in *.
    rewrite forallb_app, Hwf. done. }
  assert (delete_todo (generateId env) fs1
          = (Ret (respond 200 (JObj [("message", JStr "Todo deleted successfully");
                                     ("todo", JObj it)])),
             mkFS (Some (JSON_stringify (collection (items ++ []))))
               (readable fs1) true)) as Hdel.
  { apply delete_todo_ok; try done. subst fs1. by rewrite Hpost. }
  assert (fs2 = mkFS (Some (JSON_stringify (collection items))) true true)
    as Hfs2.
  { subst fs2. rewrite Hdel. cbn [snd]. rewrite app_nil_r.
    subst fs1. rewrite Hpost. cbn [snd readable]. by rewrite Hr. }
  repeat split.
  - exists (JObj it). by rewrite Hpost, Hdel.
  - done.
  - rewrite Hfs2. by apply read_written.
Qed.


(** What a successful update wrote, read back. *)
Lemma put_todo_read_back
    (env : Env) (id : string) (req_body : Obj) (fs fs' : FS) (r : Response) :
  put_todo env id req_body fs = (Ret r, fs') ->
  status r = 200 ->
  readable fs = true ->
  well_formed (JObj req_body) = true ->
  exists before it after it',
    readTodos fs = (Ret (JArr (before ++ JObj it :: after)), fs)
    /\ Forall (fun x => has_id id x = Ret false) before
    /\ r = respond 200 (JObj it')
    /\ fs' = mkFS (Some (JSON_stringify (JArr (before ++ JObj it' :: after))))
                  true true
    /\ readTodos fs' = (Ret (JArr (before ++ JObj it' :: after)), fs')
    /\ getProp it' "id" = Some (JStr id)
    /\ getProp it' "updatedAt" = Some (JStr (toISOString env))
    /\ (forall v, getProp req_body "text" = Some v ->
                  exists s, v = JStr s /\ getProp it' "text" = Some (JStr (trim s)))
    /\ (forall c, getProp req_body "completed" = Some c ->
                  getProp it' "completed" = Some c)
    /\ getProp it "id" = Some (JStr id).
Proof.
  intros Hput Hok Hr Hbody.
  destruct (put_todo_inv _ _ _ _ _ _ Hput)
    as [(_ & r' & [= <-] & Hno)
       |(before & it & after & it' & Hread & Hid & Hb & _ & [= ->] & -> & Hit' & Htext)];
    [done|].
  exists before, it, after, it'. rewrite Hr.
  pose proof (readTodos_well_formed fs _ Hread) as Hwf.
  rewrite well_formed_middle in Hwf. apply andb_true_iff in Hwf as [Hit Hrest].
  assert (well_formed (JObj it') = true) as Hwf'.
  { subst it'. apply well_formed_setProp; [|done].
    destruct (getProp req_body "completed") as [c|] eqn:Hc.
    - apply well_formed_setProp; [|exact (well_formed_getProp _ _ _ Hbody Hc)].
      destruct (getProp req_body "text") as [[]|]; try done.
      by apply well_formed_setProp.
    - destruct (getProp req_body "text") as [[]|]; try done.
      by apply well_formed_setProp. }
  repeat split; try done.
  - apply read_written. by rewrite well_formed_middle, Hwf', Hrest.
  - subst it'. rewrite getProp_setProp_ne by done.
    destruct (getProp req_body "completed");
      rewrite ?getProp_setProp_ne by done;
      destruct (getProp req_body "text") as [[]|];
      by rewrite ?getProp_setProp_ne by done.
  - subst it'. apply getProp_setProp_eq.
  - intros v Hv. rewrite Hv in Htext, Hit'. destruct Htext as (s & -> & _).
    exists s. split; [done|]. subst it'. rewrite getProp_setProp_ne by done.
    destruct (getProp req_body "completed");
      rewrite ?getProp_setProp_ne by done; apply getProp_setProp_eq.
  - intros c Hc. rewrite Hc in Hit'. subst it'.
    rewrite getProp_setProp_ne by done. apply getProp_setProp_eq.
Qed.

(** X14. After an update that answered 200, a listing returns the stored
    array with the answered Item standing where the first holder of the id
    stood: the array that was read splits around the first element that
    carries the id (no element before it does), and the listing is that
    array with this one element replaced by the answered Item, the elements
    before and after it the same, in their order. *)
Theorem update_then_list
    (env env' : Env) (id : string) (req_body : Obj) (fs fs' : FS) (r : Response) :
  put_todo env id req_body fs = (Ret r, fs') ->
  status r = 200 ->
  readable fs = true ->
  well_formed (JObj req_body) = true ->
  exists before old after,
    readTodos fs = (Ret (JArr (before ++ JObj old :: after)), fs)
    /\ getProp old "id" = Some (JStr id)
    /\ Forall (fun x => has_id id x = Ret false) before
    /\ get_todos env' fs'
       = (Ret (respond 200 (JArr (before ++ body r :: after))), fs').
Proof.
  intros Hput Hok Hr Hbody.
  destruct (put_todo_read_back _ _ _ _ _ _ Hput Hok Hr Hbody)
    as (before & it & after & it' & Hread & Hb & -> & _ & Hread' & _ & _ & _
        & _ & Hid).
  exists before, it, after. do 3 (split; [done|]). by apply get_todos_array.
Qed.


End Sequences.

(** ** Identifiers *)

Lemma append_inj_length (a a' r r' : string) :
  String.length a = String.length a' ->
  (a ++ r = a' ++ r')%string -> a = a' /\ r = r'.
Proof.
  revert a'. induction a as [|c a IH]; intros [|c' a']; simpl; try done.
  intros [= Hlen] [= -> Heq]. destruct (IH a' Hlen Heq) as [-> ->]. done.
Qed.

Lemma toString_inj (a b : Z) : toString a = toString b -> a = b.
Proof.
  intros Heq.
  pose proof (JsonTextLaws.int_of_toString a) as Ha.
  rewrite Heq, JsonTextLaws.int_of_toString in Ha. injection Ha as Hab.
  by rewrite <- (DecimalZ.of_to a), <- (DecimalZ.of_to b), Hab.
Qed.

(** X16. Two ids that [generateId] builds are equal only if both the clock
    readings and the random suffixes are equal, provided the two suffixes
    have the same length or the two clock readings have the same number of
    digits.  ([generateRequestId] has the same body.) *)
Theorem generateId_injective (env env' : Env) :
  String.length (random36 env) = String.length (random36 env')
  \/ String.length (toString (Date_now env))
     = String.length (toString (Date_now env')) ->
  generateId env = generateId env' ->
  Date_now env = Date_now env' /\ random36 env = random36 env'.
Proof.
  unfold generateId. intros Hlen Heq.
  assert (String.length (toString (Date_now env))
          = String.length (toString (Date_now env'))) as Hclock.
  { destruct Hlen as [Hlen|Hlen]; [|done].
    apply (f_equal String.length) in Heq.
    rewrite !JsonTextLaws.length_append in Heq. lia. }
  destruct (append_inj_length _ _ _ _ Hclock Heq) as [Hnow Hsuffix].
  split; [by apply toString_inj|done].
Qed.

(** ** Logging, and the add form of the frontend *)

Section Logging.
Context `{Codec}.

Ltac run :=
  unfold get_todos, post_todos, put_todo, delete_todo, try_catch, bind, lift,
    ret, collection, as_array in *; cbn [fst snd].


(** X18. The add form of the frontend sends nothing when the value of the
    input field is blank, and hands the trimmed value to [addTodo]
    otherwise.  The create request that results is never answered 400 "Todo
    text is required"; when it is answered 201, the text of the created Item
    is exactly the text sent (trimming it again changes nothing); and on a
    writable file that holds an array it is answered 201. *)
Theorem add_form_is_never_rejected
    (env : Env) (value : string) (todos : Json) (fs : FS) :
  (forall fetch,
     handleAddTodo fetch value todos fs
     = if blank value then (todos, fs)
       else addTodo fetch (trim value) todos fs)
  /\ (blank value = false ->
      forall o fs',
        handle env (Create [("text", JStr (trim value))]) fs = (o, fs') ->
        o <> Ret (respond 400 (error_body "Todo text is required"))
        /\ (forall r, o = Ret r -> status r = 201 ->
            exists it, body r = JObj it
                       /\ getProp it "text" = Some (JStr (trim value)))
        /\ (forall items,
              readTodos fs = (Ret (JArr items), fs) -> writable fs = true ->
              exists r, o = Ret r /\ status r = 201)).
Proof.
  split.
  - intros fetch. unfold handleAddTodo. cbn zeta.
    destruct (String.eqb_spec (trim value) "") as [Hempty|Hne].
    + apply trim_empty_iff in Hempty. by rewrite Hempty.
    + destruct (blank value) eqn:Hb; [|done]. by apply trim_empty_iff in Hb.
  - intros Hblank o fs' Hrun. cbn [handle] in Hrun.
    assert (trim value <> "") as Hne.
    { intros Hempty%trim_empty_iff. congruence. }
    assert (blank (trim value) = false) as Hblank'.
    { destruct (blank (trim value)) eqn:Hb; [|done].
      apply trim_empty_iff in Hb. by rewrite trim_idem in Hb. }
    split; [|split].
    + intros ->.
      apply post_todos_cases in Hrun
        as [(e & v & [=] & _)
           |[(_ & _ & [Hfalsy|(s & [= <-] & Hempty)])
            |[([=] & _)|(it & [=] & _)]]].
      * cbn in Hfalsy. destruct (String.eqb_spec (trim value) ""); done.
      * by rewrite trim_idem in Hempty.
    + intros r -> Hok.
      apply post_todos_inv in Hrun
        as [[_ Hno]|(items & s & _ & [= <-] & _ & _ & [= ->] & _)].
      * by destruct (Hno r).
      * eexists. split; [done|]. cbn. by rewrite trim_idem.
    + intros items Hread Hw.
      rewrite (post_todos_ok env _ fs items (trim value)) in Hrun; try done.
      * injection Hrun as <- _. eauto.
      * by rewrite trim_idem.
Qed.

End Logging.

(** ** The frontend's copy and the store

    These statements follow one call of a function of the page through the
    server and back. *)

Section Mirror.
Context `{CodecLaws}.

(** The request reaches the handler of its route as it was sent, and the
    answer reaches the page: the statements below say so where they need
    it, as an equation between [fetch] and [handle]. *)
Variable fetch : Request -> Async Response.

Lemma has_id_holds (id : string) (it : Obj) :
  has_id id (JObj it) = Ret (holds id it).
Proof.
  unfold has_id, holds, todo_id. by destruct (getProp it "id") as [[]|].
Qed.

Lemma holds_true (id : string) (it : Obj) :
  holds id it = true <-> getProp it "id" = Some (JStr id).
Proof.
  unfold holds. destruct (getProp it "id") as [[]|]; try (split; done).
  destruct (String.eqb_spec s id) as [->|Hne]; split; try done.
  intros [= ->]. done.
Qed.

(** On Items the filter of [deleteTodo] keeps those that do not carry the
    id. *)
Lemma filter_array_items (id : string) (items : list Obj) :
  filter_array (has_other_id id) (JObj <$> items)
  = Ret (JObj <$> List.filter (fun it => negb (holds id it)) items).
Proof.
  induction items as [|it items IH]; [done|].
  rewrite fmap_cons. cbn [filter_array List.filter].
  unfold has_other_id at 1. rewrite has_id_holds, IH.
  by destruct (holds id it).
Qed.

Lemma filter_none (id : string) (items : list Obj) :
  (forall x, x ∈ items -> getProp x "id" <> Some (JStr id)) ->
  List.filter (fun it => negb (holds id it)) items = items
  /\ List.filter (holds id) items = [].
Proof.
  induction items as [|it items IH]; intros Hall; [done|].
  cbn [List.filter].
  destruct (holds id it) eqn:Hit.
  - apply holds_true in Hit. destruct (Hall it); [by left|done].
  - cbn [negb]. destruct IH as [-> ->]; [|done].
    intros x Hx. apply Hall. by right.
Qed.

Lemma filter_fixed (id : string) (items : list Obj) :
  List.filter (fun it => negb (holds id it)) items = items
  <-> List.filter (holds id) items = [].
Proof.
  induction items as [|it items IH]; [done|].
  cbn [List.filter]. destruct (holds id it) eqn:Hit; cbn [negb].
  - split; [|done]. intros Heq.
    pose proof (List.filter_length_le (fun it => negb (holds id it)) items) as Hle.
    rewrite Heq in Hle. simpl in Hle. lia.
  - rewrite <- IH. split; [by intros [= ->]|by intros ->].
Qed.

Lemma collection_inj (a b : list Obj) : JObj <$> a = JObj <$> b -> a = b.
Proof.
  revert b. induction a as [|x a IH]; intros [|y b]; try done.
  rewrite !fmap_cons. intros [= -> Heq]. by rewrite (IH b).
Qed.

(** X19. A load that is not held back by one under way replaces the copy by
    the value the store holds: always when that value is an array, and for
    any value when the server does not log.  The data file is untouched. *)
Theorem loadTodos_copies_the_store
    (env : Env) (todos stored : Json) (fs : FS) :
  fetch List fs = handle env List fs ->
  readTodos fs = (Ret stored, fs) ->
  logging env = false \/ (exists items, stored = JArr items) ->
  loadTodos fetch false todos fs = (stored, fs).
Proof.
  intros Hfetch Hread Hcase. unfold loadTodos, apiRequest.
  rewrite Hfetch. cbn [handle].
  destruct (get_todos_cases env fs stored Hread) as [->|(_ & Hlog & Hshape)];
    [done|].
  destruct Hcase as [Hoff|[items ->]]; [congruence|by destruct (Hshape items)].
Qed.

(** X20. When the copy equals the stored array, it still equals what the
    store holds after [addTodo], whatever the server answers: a rejection
    changes neither, and after a 201 both end with the new Item. *)
Theorem addTodo_keeps_the_copy
    (env : Env) (text : string) (fs : FS) (items : list Json) :
  fetch (Create [("text", JStr text)]) fs
  = handle env (Create [("text", JStr text)]) fs ->
  readTodos fs = (Ret (JArr items), fs) ->
  readable fs = true ->
  readTodos (snd (addTodo fetch text (JArr items) fs))
  = (Ret (fst (addTodo fetch text (JArr items) fs)),
     snd (addTodo fetch text (JArr items) fs)).
Proof.
  intros Hfetch Hread Hr. unfold addTodo, apiRequest.
  rewrite Hfetch. cbn [handle].
  destruct (post_todos env [("text", JStr text)] fs) as [o fs'] eqn:Hpost.
  pose proof Hpost as Hcases.
  apply post_todos_cases in Hcases
    as [(e & v & -> & -> & _)
       |[(-> & -> & _)|[(-> & ->)|(it & -> & Hw)]]]; try done.
  apply post_todos_inv in Hpost
    as [[_ Hno]|(todos & s & Hread' & _ & _ & _ & [= ->] & ->)];
    [by destruct (Hno _ eq_refl)|].
  rewrite Hread in Hread'. injection Hread' as <-.
  unfold ok. cbn [status body Nat.leb andb fst snd as_array].
  rewrite Hr. apply read_written.
  pose proof (readTodos_well_formed fs _ Hread) as Hwf.
  cbn [well_formed] in *. rewrite forallb_app, Hwf. done.
Qed.

(** X21. When the copy equals the stored array, it still equals what the
    store holds after [updateTodo], whatever the server answers: the copy
    replaces the first element with the id, which is the one the server
    updated, also when several elements carry the id. *)
Theorem updateTodo_keeps_the_copy
    (env : Env) (id : string) (updates : Obj) (fs : FS) (items : list Json) :
  fetch (Update id updates) fs = handle env (Update id updates) fs ->
  readTodos fs = (Ret (JArr items), fs) ->
  readable fs = true ->
  well_formed (JObj updates) = true ->
  readTodos (snd (updateTodo fetch id updates (JArr items) fs))
  = (Ret (fst (updateTodo fetch id updates (JArr items) fs)),
     snd (updateTodo fetch id updates (JArr items) fs)).
Proof.
  intros Hfetch Hread Hr Hwf. unfold updateTodo, apiRequest.
  rewrite Hfetch. cbn [handle].
  destruct (put_todo env id updates fs) as [o fs'] eqn:Hput.
  pose proof Hput as Hcases.
  apply put_todo_cases in Hcases
    as [(-> & -> & _)|[(-> & -> & _)|[(-> & ->)|(it' & -> & Hw)]]]; try done.
  destruct (put_todo_read_back _ _ _ _ _ _ Hput eq_refl Hr Hwf)
    as (before & it & after & it2 & Hread' & Hb & [= <-] & _ & Hback & _ & _ & _
        & _ & Hid).
  rewrite Hread in Hread'. injection Hread' as ->.
  unfold ok. cbn [status body Nat.leb andb fst snd as_array].
  rewrite (findIndex_first id before after it Hb Hid). cbn [fst snd].
  by rewrite insert_app_r_alt, Nat.sub_diag by done.
Qed.

(** X22. When the copy equals the stored collection, it still equals what
    the store holds after [deleteTodo] exactly when the data file cannot be
    written or at most one Item carries the id: the server removes the first
    Item with the id, the page removes all of them. *)
Theorem deleteTodo_keeps_the_copy_iff
    (env : Env) (id : string) (fs : FS) (items : list Obj) :
  fetch (Delete id) fs = handle env (Delete id) fs ->
  readTodos fs = (Ret (collection items), fs) ->
  readable fs = true ->
  readTodos (snd (deleteTodo fetch id (collection items) fs))
  = (Ret (fst (deleteTodo fetch id (collection items) fs)),
     snd (deleteTodo fetch id (collection items) fs))
  <-> writable fs = false \/ length (List.filter (holds id) items) <= 1.
Proof.
  intros Hfetch Hread Hr. unfold deleteTodo, apiRequest.
  rewrite Hfetch. cbn [handle].
  destruct (delete_todo id fs) as [o fs'] eqn:Hdel.
  pose proof Hdel as Hcases.
  apply delete_todo_cases in Hcases
    as [(-> & -> & todos & Hread' & Hnone)|[(-> & ->)|(v & -> & Hw)]].
  - unfold ok. cbn [status fst snd Nat.leb andb]. split; [intros _; right|done].
    rewrite Hread in Hread'. injection Hread' as <-.
    destruct (List.filter (holds id) items) as [|x rest] eqn:Hf; [simpl; lia|].
    assert (x ∈ List.filter (holds id) items) as Hx by (rewrite Hf; left).
    apply list_elem_of_In, List.filter_In in Hx as [Hin Hx%holds_true].
    apply list_elem_of_In in Hin.
    destruct (known_split id items) as (b & it & a & -> & Hid & Hb);
      [by exists x|].
    by rewrite (findIndex_known id b a it Hid Hb) in Hnone.
  - unfold ok. cbn [status fst snd Nat.leb andb]. split; [intros _|done].
    destruct (writable fs) eqn:Hw; [right|by left].
    destruct (List.filter (holds id) items) as [|x rest] eqn:Hf; [simpl; lia|].
    assert (x ∈ List.filter (holds id) items) as Hx by (rewrite Hf; left).
    apply list_elem_of_In, List.filter_In in Hx as [Hin Hx%holds_true].
    apply list_elem_of_In in Hin.
    destruct (known_split id items) as (b & it & a & -> & Hid & Hb);
      [by exists x|].
    by rewrite (delete_todo_ok id fs b a it Hread Hw Hid Hb) in Hdel.
  - apply delete_todo_inv in Hdel
      as [[_ (r & [= <-] & Hno)]|(b & it & a & Hread' & Hid & Hb & _ & [= ->] & ->)];
      [done|].
    rewrite Hread in Hread'. injection Hread' as Hsplit.
    destruct (collection_split items b a it) as (b' & a' & -> & -> & ->);
      [unfold collection; by rewrite Hsplit|].
    assert (forall x, x ∈ b' -> getProp x "id" <> Some (JStr id)) as Hb'.
    { intros x Hx Hxid. rewrite Forall_fmap, Forall_forall in Hb.
      specialize (Hb x Hx). simpl in Hb.
      by rewrite (has_id_obj_true _ _ Hxid) in Hb. }
    unfold ok. cbn [status body fst snd Nat.leb andb]. unfold collection.
    cbn [as_array]. rewrite filter_array_items. cbn [fst snd].
    rewrite Hr.
    assert (well_formed (JArr ((JObj <$> b') ++ (JObj <$> a'))) = true) as Hwf.
    { pose proof (readTodos_well_formed fs _ Hread) as Hwf.
      unfold collection in Hwf. rewrite fmap_app, fmap_cons in Hwf.
      rewrite well_formed_middle in Hwf.
      by apply andb_true_iff in Hwf as [_ Hwf]. }
    rewrite (read_written _ Hwf).
    rewrite !List.filter_app. cbn [List.filter].
    apply holds_true in Hid. rewrite Hid. cbn [negb].
    destruct (filter_none id b' Hb') as [-> ->].
    rewrite fmap_app. cbn [app length]. split.
    + intros [= Heq]. right.
      apply app_inv_head in Heq.
      apply collection_inj in Heq.
      symmetry in Heq. apply filter_fixed in Heq. rewrite Heq. simpl. lia.
    + intros [Hro|Hone]; [congruence|].
      assert (List.filter (holds id) a' = []) as Hnil.
      { destruct (List.filter (holds id) a'); [done|simpl in Hone; lia]. }
      apply filter_fixed in Hnil. by rewrite Hnil.
Qed.

End Mirror.

(** * The statements on documents of the test-suite *)

#[local] Existing Instance JsonText.codec.
#[local] Existing Instance JsonTextLaws.laws.

Lemma readTodos_disk :
  readTodos Fixture.disk
  = (Ret (collection [Fixture.todo1; Fixture.todo2]), Fixture.disk).
Proof. vm_compute. reflexivity. Qed.

Lemma known_todo1 : known "test-id-1" [Fixture.todo1; Fixture.todo2].
Proof. exists Fixture.todo1. split; [apply list_elem_of_here|reflexivity]. Qed.

Lemma unknown_in_disk (it : Obj) :
  it ∈ [Fixture.todo1; Fixture.todo2] ->
  getProp it "id" <> Some (JStr "nonexistent-id").
Proof.
  intros Hin. repeat (apply elem_of_cons in Hin as [->|Hin]; [done|]).
  by apply elem_of_nil in Hin.
Qed.

(** C1 on the fixture: a blank text together with a completed value. *)
Lemma put_rejects_blank_text_witness :
  put_todo Fixture.env "test-id-1"
    [("text", JStr "   "); ("completed", JBool true)] Fixture.disk
  = (Ret (respond 400 (error_body "Todo text cannot be empty")), Fixture.disk)
  /\ readTodos (snd (put_todo Fixture.env "test-id-1"
                       [("text", JStr "   "); ("completed", JBool true)]
                       Fixture.disk))
     = (Ret (collection [Fixture.todo1; Fixture.todo2]),
        snd (put_todo Fixture.env "test-id-1"
               [("text", JStr "   "); ("completed", JBool true)]
               Fixture.disk)).
Proof.
  apply (put_rejects_blank_text Fixture.env "test-id-1"
           [("text", JStr "   "); ("completed", JBool true)] Fixture.disk
           [Fixture.todo1; Fixture.todo2] "   ").
  - apply readTodos_disk.
  - apply known_todo1.
  - reflexivity.
  - reflexivity.
Defined.



(** X23 on the fixture: a create beside the two Items of the test-suite,
    which stay in front of the new Item in their order. *)
Lemma post_appends_item_witness :
  exists newTodo : Obj,
    post_todos Fixture.env [("text", JStr "  Buy milk ")] Fixture.disk
    = (Ret (respond 201 (JObj newTodo)),
       mkFS (Some (JSON_stringify
                     (JArr ([JObj Fixture.todo1; JObj Fixture.todo2]
                            ++ [JObj newTodo]))))
            (readable Fixture.disk) true)
    /\ getProp newTodo "text" = Some (JStr "Buy milk")
    /\ getProp newTodo "completed" = Some (JBool false)
    /\ getProp newTodo "updatedAt" = None
    /\ getProp newTodo "id" = Some (JStr "1700000000000k3j9x0q2p")
    /\ fst (get_todos Fixture.quiet
              (snd (post_todos Fixture.env [("text", JStr "  Buy milk ")]
                      Fixture.disk)))
       = Ret (respond 200 (JArr ([JObj Fixture.todo1; JObj Fixture.todo2]
                                 ++ [JObj newTodo]))).
Proof.
  destruct (post_appends_item Fixture.env [("text", JStr "  Buy milk ")]
              Fixture.disk [JObj Fixture.todo1; JObj Fixture.todo2]
              "  Buy milk ")
    as (newTodo & Hrun & Htext & Hcompleted & _ & Hupdated & Hid & _ & Hlist).
  - apply readTodos_disk.
  - reflexivity.
  - reflexivity.
  - reflexivity.
  - exists newTodo. split; [exact Hrun|]. split; [exact Htext|].
    split; [exact Hcompleted|]. split; [exact Hupdated|]. split; [exact Hid|].
    exact (Hlist eq_refl Fixture.quiet).
Defined.

(** C3.  The code breaks the claim, and with it the comment "Generate unique
    ID" that stands above [generateId]: the id is the clock reading followed
    by a random suffix and is compared with nothing.  Two creates at the same
    clock reading and the same random draw both answer 201, the second with
    the id the first Item already carries; afterwards the collection holds
    two Items with one id. *)
Lemma post_id_can_repeat :
  readTodos Fixture.after_first
  = (Ret (collection [Fixture.first]), Fixture.after_first)
  /\ fst (post_todos Fixture.env [("text", JStr "Walk dog")] Fixture.after_first)
     = Ret (respond 201 (JObj Fixture.second))
  /\ fst (readTodos (snd (post_todos Fixture.env [("text", JStr "Walk dog")]
                            Fixture.after_first)))
     = Ret (collection [Fixture.first; Fixture.second])
  /\ getProp Fixture.second "id" = getProp Fixture.first "id"
  /\ ~ (forall it, it ∈ [Fixture.first] ->
                   getProp it "id" <> getProp Fixture.second "id").
Proof.
  split; [vm_compute; reflexivity|]. split; [vm_compute; reflexivity|].
  split; [vm_compute; reflexivity|]. split; [reflexivity|].
  intros Hfresh. by apply (Hfresh Fixture.first); [apply list_elem_of_here|].
Qed.

(** C4 on the fixture: [PUT] with [{completed: true}] changes completed and
    sets updatedAt; text, id and createdAt stay, and so does the other Item. *)
Lemma put_success_frame_witness :
  fst (put_todo Fixture.env "test-id-1" [("completed", JBool true)]
         Fixture.disk) = Ret (respond 200 (JObj Fixture.todo1_done))
  /\ exists before it after,
       readTodos Fixture.disk
       = (Ret (JArr (before ++ JObj it :: after)), Fixture.disk)
       /\ snd (put_todo Fixture.env "test-id-1" [("completed", JBool true)]
                 Fixture.disk)
          = mkFS (Some (JSON_stringify
                          (JArr (before ++ JObj Fixture.todo1_done :: after))))
                 (readable Fixture.disk) true
       /\ getProp Fixture.todo1_done "text" = getProp it "text"
       /\ getProp Fixture.todo1_done "id" = getProp it "id"
       /\ getProp Fixture.todo1_done "createdAt" = getProp it "createdAt".
Proof.
  split; [vm_compute; reflexivity|].
  destruct (put_success_frame Fixture.env "test-id-1"
              [("completed", JBool true)] Fixture.disk
              (snd (put_todo Fixture.env "test-id-1"
                      [("completed", JBool true)] Fixture.disk))
              (respond 200 (JObj Fixture.todo1_done)))
    as (before & it & after & it' & Hread & _ & Hr & Hfs & _ & Hid & Hcr & Ht & _).
  - vm_compute. reflexivity.
  - reflexivity.
  - injection Hr as <-. exists before, it, after.
    split; [exact Hread|]. split; [exact Hfs|].
    split; [exact Ht|]. split; [exact Hid|exact Hcr].
Defined.

(** C5 on the fixture: the 404 of the test-suite. *)
Lemma unknown_id_not_found_witness :
  put_todo Fixture.env "nonexistent-id" [("text", JStr "Updated text")]
    Fixture.disk
  = (Ret (respond 404 (error_body "Todo not found")), Fixture.disk)
  /\ delete_todo "nonexistent-id" Fixture.disk
     = (Ret (respond 404 (error_body "Todo not found")), Fixture.disk).
Proof.
  apply (unknown_id_not_found Fixture.env "nonexistent-id"
           [("text", JStr "Updated text")] Fixture.disk
           [Fixture.todo1; Fixture.todo2]).
  - apply readTodos_disk.
  - apply unknown_in_disk.
Defined.

(** C6 (as amended) on the fixture: deleting the first of two Items. *)
Lemma delete_removes_item_witness :
  exists before it after,
    [Fixture.todo1; Fixture.todo2] = before ++ it :: after
    /\ delete_todo "test-id-1" Fixture.disk
       = (Ret (respond 200
                 (JObj [("message", JStr "Todo deleted successfully");
                        ("todo", JObj it)])),
          mkFS (Some (JSON_stringify (collection (before ++ after))))
               (readable Fixture.disk) true)
    /\ length [Fixture.todo1; Fixture.todo2] = S (length (before ++ after)).
Proof.
  destruct (delete_removes_item "test-id-1" Fixture.disk
              [Fixture.todo1; Fixture.todo2])
    as (before & it & after & Hsplit & _ & _ & Hrun & Hlen & _).
  - apply readTodos_disk.
  - reflexivity.
  - apply known_todo1.
  - exists before, it, after. split; [exact Hsplit|]. split; [exact Hrun|exact Hlen].
Defined.

(** C6 as first stated fails: when the data file holds the two Items and
    cannot be written, the delete of a known id answers 500 "Failed to
    delete todo", returns no Item, and removes nothing: the collection has
    its two Items afterwards. *)
Lemma delete_refused_write_removes_nothing :
  readTodos Fixture.read_only
  = (Ret (collection [Fixture.todo1; Fixture.todo2]), Fixture.read_only)
  /\ known "test-id-1" [Fixture.todo1; Fixture.todo2]
  /\ delete_todo "test-id-1" Fixture.read_only
     = (Ret (respond 500 (error_body "Failed to delete todo")),
        Fixture.read_only)
  /\ fst (readTodos (snd (delete_todo "test-id-1" Fixture.read_only)))
     = Ret (collection [Fixture.todo1; Fixture.todo2])
  /\ ~ (exists it,
          fst (delete_todo "test-id-1" Fixture.read_only)
          = Ret (respond 200
                   (JObj [("message", JStr "Todo deleted successfully");
                          ("todo", JObj it)]))).
Proof.
  split; [vm_compute; reflexivity|]. split; [apply known_todo1|].
  split; [vm_compute; reflexivity|]. split; [vm_compute; reflexivity|].
  intros [it Hrun]. vm_compute in Hrun. discriminate Hrun.
Qed.

(** C7 on the fixtures: a file that is not JSON reads as the empty array. *)
Lemma readTodos_fail_open_witness :
  readTodos Fixture.garbage = (Ret (JArr []), Fixture.garbage).
Proof.
  destruct (readTodos_fail_open Fixture.garbage) as (_ & _ & _ & _ & Hbad).
  apply (Hbad "{ not json"); vm_compute; reflexivity.
Defined.

(** C8 on the fixture: a text of three spaces. *)
Lemma post_rejects_blank_text_witness :
  post_todos Fixture.env [("text", JStr "   ")] Fixture.disk
  = (Ret (respond 400 (error_body "Todo text is required")), Fixture.disk).
Proof.
  apply (post_rejects_blank_text Fixture.env [("text", JStr "   ")] Fixture.disk).
  right. exists "   ". split; reflexivity.
Defined.


(** C10 on the fixture: a number as text. *)
Lemma nonstring_text_is_a_500_witness :
  post_todos Fixture.env [("text", JNum 5)] Fixture.disk
  = (Ret (respond 500 (error_body "Failed to create todo")), Fixture.disk)
  /\ put_todo Fixture.env "test-id-1" [("text", JNum 5)] Fixture.disk
     = (Ret (respond 500 (error_body "Failed to update todo")), Fixture.disk).
Proof.
  destruct (nonstring_text_is_a_500 Fixture.env [("text", JNum 5)]
              Fixture.disk (JNum 5)) as (Hpost & Hput).
  - reflexivity.
  - reflexivity.
  - intros s. discriminate.
  - split; [apply Hpost; by right|].
    apply (Hput "test-id-1" [Fixture.todo1; Fixture.todo2]).
    + apply readTodos_disk.
    + apply known_todo1.
Defined.

(** C10 as first stated fails: an update with a number as text and an id
    that no Item carries is answered 404, not 500. *)
Lemma put_nonstring_text_unknown_id_is_404 :
  getProp [("text", JNum 5)] "text" = Some (JNum 5)
  /\ truthy (Some (JNum 5)) = true
  /\ put_todo Fixture.env "nonexistent-id" [("text", JNum 5)] Fixture.disk
     = (Ret (respond 404 (error_body "Todo not found")), Fixture.disk)
  /\ fst (put_todo Fixture.env "nonexistent-id" [("text", JNum 5)]
            Fixture.disk)
     <> Ret (respond 500 (error_body "Failed to update todo")).
Proof.
  split; [reflexivity|]. split; [reflexivity|].
  split; [vm_compute; reflexivity|]. vm_compute. discriminate.
Qed.

(** ** The scenarios of the test-suite, run on the embedding *)

(** [PUT] with an empty body succeeds and sets updatedAt only. *)
Example put_with_neither_field :
  fst (put_todo Fixture.env "test-id-2" [] Fixture.disk)
  = Ret (respond 200
           (JObj [("id", JStr "test-id-2"); ("text", JStr "Second todo");
                  ("completed", JBool true);
                  ("createdAt", JStr "2023-01-02T00:00:00.000Z");
                  ("updatedAt", JStr "2023-11-14T22:13:20.000Z")])).
Proof. vm_compute. reflexivity. Qed.

(** With logging on, a create whose text is an object with a [toString]
    property throws in front of the [try]. *)
Example post_unprintable_text :
  post_todos Fixture.env [("text", JObj [("toString", JNum 1)])] Fixture.disk
  = (Throw (TypeError "Cannot convert object to primitive value"), Fixture.disk).
Proof. vm_compute. reflexivity. Qed.

(** "should handle complete CRUD workflow": create, list, update, list,
    delete, list. *)
Example crud_workflow :
  let text := [("text", JStr "Integration test todo")] in
  let change := [("text", JStr "Updated integration test");
                 ("completed", JBool true)] in
  let id := generateId Fixture.env in
  let fs1 := snd (post_todos Fixture.env text Fixture.no_file) in
  let fs2 := snd (put_todo Fixture.env id change fs1) in
  let fs3 := snd (delete_todo id fs2) in
  let updated := JObj [("id", JStr id);
                       ("text", JStr "Updated integration test");
                       ("completed", JBool true);
                       ("createdAt", JStr "2023-11-14T22:13:20.000Z");
                       ("updatedAt", JStr "2023-11-14T22:13:20.000Z")] in
  fst (get_todos Fixture.env fs1)
  = Ret (respond 200
           (JArr [JObj [("id", JStr id);
                        ("text", JStr "Integration test todo");
                        ("completed", JBool false);
                        ("createdAt", JStr "2023-11-14T22:13:20.000Z")]]))
  /\ fst (put_todo Fixture.env id change fs1) = Ret (respond 200 updated)
  /\ fst (get_todos Fixture.env fs2) = Ret (respond 200 (JArr [updated]))
  /\ fst (delete_todo id fs2)
     = Ret (respond 200 (JObj [("message", JStr "Todo deleted successfully");
                               ("todo", updated)]))
  /\ fst (get_todos Fixture.env fs3) = Ret (respond 200 (JArr [])).
Proof. vm_compute. repeat split. Qed.

(** * The further properties on documents of the test-suite *)

Lemma readTodos_read_only :
  readTodos Fixture.read_only
  = (Ret (collection [Fixture.todo1; Fixture.todo2]), Fixture.read_only).
Proof. vm_compute. reflexivity. Qed.

Lemma pair_eta {A B} (p : A * B) : p = (fst p, snd p).
Proof. by destruct p. Qed.

Lemma fixture_texts_trimmed :
  Forall text_is_trimmed [Fixture.todo1; Fixture.todo2].
Proof.
  repeat constructor;
    [exists "First todo"|exists "Second todo"]; by repeat split.
Qed.

(** X1 on the fixture: the update of the test-suite. *)
Lemma answers_are_documented_witness :
  documented (Update "test-id-1" [("completed", JBool true)])
    (respond 200 (JObj Fixture.todo1_done)).
Proof.
  apply (answers_are_documented Fixture.env
           (Update "test-id-1" [("completed", JBool true)]) Fixture.disk
           (snd (put_todo Fixture.env "test-id-1" [("completed", JBool true)]
                   Fixture.disk))).
  vm_compute. reflexivity.
Defined.

(** X3 on the fixture: a create with a number as text. *)
Lemma failure_writes_nothing_witness :
  snd (handle Fixture.env (Create [("text", JNum 5)]) Fixture.disk)
  = Fixture.disk.
Proof.
  apply (failure_writes_nothing Fixture.env (Create [("text", JNum 5)])
           Fixture.disk _
           (fst (handle Fixture.env (Create [("text", JNum 5)]) Fixture.disk))).
  - apply pair_eta.
  - intros r Hr. vm_compute in Hr. injection Hr as <-. cbn [status]. lia.
Defined.

(** X4 on the fixtures: no file, and a file that is not JSON. *)
Lemma listing_fails_open_witness :
  get_todos Fixture.env Fixture.no_file
  = (Ret (respond 200 (JArr [])), Fixture.no_file)
  /\ get_todos Fixture.env Fixture.garbage
     = (Ret (respond 200 (JArr [])), Fixture.garbage).
Proof.
  split.
  - apply (listing_fails_open Fixture.env Fixture.no_file). left. reflexivity.
  - apply (listing_fails_open Fixture.env Fixture.garbage). right; right.
    exists "{ not json". split; vm_compute; reflexivity.
Defined.

(** X5 on the fixture: a file that holds [null], listed in the test
    environment and outside it. *)
Lemma listing_depends_on_logging_witness :
  get_todos Fixture.quiet Fixture.null_file
  = (Ret (respond 200 JNull), Fixture.null_file)
  /\ get_todos Fixture.env Fixture.null_file
     = (Ret (respond 500 (error_body "Failed to fetch todos")),
        Fixture.null_file).
Proof.
  split.
  - destruct (listing_depends_on_logging Fixture.quiet Fixture.null_file JNull)
      as [Hoff _]; [vm_compute; reflexivity|].
    apply Hoff. reflexivity.
  - destruct (listing_depends_on_logging Fixture.env Fixture.null_file JNull)
      as [_ Hon]; [vm_compute; reflexivity|].
    apply Hon; reflexivity.
Defined.

(** X6 on the fixture: the two Items in a file that cannot be written. *)
Lemma refused_write_is_a_500_witness :
  post_todos Fixture.env [("text", JStr "Buy milk")] Fixture.read_only
  = (Ret (respond 500 (error_body "Failed to create todo")), Fixture.read_only)
  /\ put_todo Fixture.env "test-id-1" [("completed", JBool true)]
       Fixture.read_only
     = (Ret (respond 500 (error_body "Failed to update todo")),
        Fixture.read_only)
  /\ delete_todo "test-id-1" Fixture.read_only
     = (Ret (respond 500 (error_body "Failed to delete todo")),
        Fixture.read_only).
Proof.
  destruct (refused_write_is_a_500 Fixture.env Fixture.read_only
              [Fixture.todo1; Fixture.todo2])
    as (Hpost & Hput & Hdel).
  - apply readTodos_read_only.
  - reflexivity.
  - split; [apply (Hpost _ "Buy milk"); reflexivity|].
    split; [apply Hput; [apply known_todo1|intros s; discriminate]|].
    apply Hdel, known_todo1.
Defined.

(** X7 on the fixture: a file that holds an empty object. *)
Lemma non_array_store_is_a_500_witness :
  post_todos Fixture.env [("text", JStr "Buy milk")] Fixture.object_file
  = (Ret (respond 500 (error_body "Failed to create todo")), Fixture.object_file)
  /\ put_todo Fixture.env "test-id-1" [("completed", JBool true)]
       Fixture.object_file
     = (Ret (respond 500 (error_body "Failed to update todo")),
        Fixture.object_file)
  /\ delete_todo "test-id-1" Fixture.object_file
     = (Ret (respond 500 (error_body "Failed to delete todo")),
        Fixture.object_file).
Proof.
  destruct (non_array_store_is_a_500 Fixture.env Fixture.object_file (JObj []))
    as (Hpost & Hput & Hdel).
  - vm_compute. reflexivity.
  - intros items. discriminate.
  - split; [apply (Hpost _ "Buy milk"); reflexivity|].
    split; [apply Hput|apply Hdel].
Defined.

(** X8 on the fixture: [null] as text. *)
Lemma falsy_text_create_400_update_500_witness :
  post_todos Fixture.env [("text", JNull)] Fixture.disk
  = (Ret (respond 400 (error_body "Todo text is required")), Fixture.disk)
  /\ put_todo Fixture.env "test-id-1" [("text", JNull)] Fixture.disk
     = (Ret (respond 500 (error_body "Failed to update todo")), Fixture.disk).
Proof.
  destruct (falsy_text_create_400_update_500 Fixture.env [("text", JNull)]
              Fixture.disk JNull) as (Hpost & Hput).
  - reflexivity.
  - reflexivity.
  - split; [exact Hpost|].
    apply (Hput (fun s => ltac:(discriminate)) "test-id-1"
             [Fixture.todo1; Fixture.todo2]).
    + apply readTodos_disk.
    + apply known_todo1.
Defined.

(** X9 on the fixture: a file that holds [[null]]. *)
Lemma null_element_is_a_500_witness :
  put_todo Fixture.env "test-id-1" [("completed", JBool true)]
    Fixture.null_element
  = (Ret (respond 500 (error_body "Failed to update todo")),
     Fixture.null_element)
  /\ delete_todo "test-id-1" Fixture.null_element
     = (Ret (respond 500 (error_body "Failed to delete todo")),
        Fixture.null_element).
Proof.
  apply (null_element_is_a_500 Fixture.env "test-id-1"
           [("completed", JBool true)] Fixture.null_element [] []).
  - vm_compute. reflexivity.
  - constructor.
Defined.

(** X10 on the fixture: an update whose text has white space around it. *)
Lemma text_stays_trimmed_witness :
  snd (handle Fixture.env (Update "test-id-1" [("text", JStr "  Read  ")])
         Fixture.disk) = Fixture.disk
  \/ exists items',
       Forall text_is_trimmed items'
       /\ snd (handle Fixture.env (Update "test-id-1" [("text", JStr "  Read  ")])
                 Fixture.disk)
          = mkFS (Some (JSON_stringify (collection items')))
                 (readable Fixture.disk) true.
Proof.
  apply (text_stays_trimmed Fixture.env
           (Update "test-id-1" [("text", JStr "  Read  ")]) Fixture.disk
           [Fixture.todo1; Fixture.todo2]).
  - apply readTodos_disk.
  - apply fixture_texts_trimmed.
Defined.


(** X12 on the fixture: the first Item deleted, then asked for again. *)
Lemma deleted_id_is_gone_witness :
  let fs' := snd (delete_todo "test-id-1" Fixture.disk) in
  get_todos Fixture.env fs'
  = (Ret (respond 200 (collection [Fixture.todo2])), fs')
  /\ delete_todo "test-id-1" fs'
     = (Ret (respond 404 (error_body "Todo not found")), fs')
  /\ put_todo Fixture.env "test-id-1" [("completed", JBool true)] fs'
     = (Ret (respond 404 (error_body "Todo not found")), fs').
Proof.
  destruct (deleted_id_is_gone Fixture.env "test-id-1" Fixture.disk
              [] [Fixture.todo2] Fixture.todo1)
    as (Hlist & Hdel & Hput).
  - apply readTodos_disk.
  - reflexivity.
  - reflexivity.
  - reflexivity.
  - intros x Hx. apply elem_of_cons in Hx as [->|Hx]; [discriminate|].
    by apply elem_of_nil in Hx.
  - split; [exact Hlist|]. split; [exact Hdel|apply Hput].
Defined.

(** X13 on the fixture: an Item created beside the two, and deleted. *)
Lemma create_then_delete_restores_witness :
  let fs1 := snd (post_todos Fixture.env [("text", JStr "Buy milk")]
                    Fixture.disk) in
  let fs2 := snd (delete_todo (generateId Fixture.env) fs1) in
  fs2 = mkFS (Some (JSON_stringify (collection [Fixture.todo1; Fixture.todo2])))
          true true
  /\ readTodos fs2 = (Ret (collection [Fixture.todo1; Fixture.todo2]), fs2).
Proof.
  destruct (create_then_delete_restores Fixture.env [("text", JStr "Buy milk")]
              Fixture.disk [Fixture.todo1; Fixture.todo2] "Buy milk")
    as (_ & Hfile & Hread).
  - apply readTodos_disk.
  - reflexivity.
  - reflexivity.
  - reflexivity.
  - reflexivity.
  - intros x Hx.
    repeat (apply elem_of_cons in Hx as [->|Hx]; [discriminate|]).
    by apply elem_of_nil in Hx.
  - split; [exact Hfile|exact Hread].
Defined.

(** X14 on the fixture: the update of the test-suite, then a listing.  The
    first holder of "test-id-1" is the first Item, and the listing has the
    answered Item in its place, in front of the second Item. *)
Lemma update_then_list_witness :
  get_todos Fixture.quiet
    (snd (put_todo Fixture.env "test-id-1" [("completed", JBool true)]
            Fixture.disk))
  = (Ret (respond 200 (JArr [JObj Fixture.todo1_done; JObj Fixture.todo2])),
     snd (put_todo Fixture.env "test-id-1" [("completed", JBool true)]
            Fixture.disk)).
Proof.
  destruct (update_then_list Fixture.env Fixture.quiet "test-id-1"
              [("completed", JBool true)] Fixture.disk
              (snd (put_todo Fixture.env "test-id-1" [("completed", JBool true)]
                      Fixture.disk))
              (respond 200 (JObj Fixture.todo1_done)))
    as (before & old & after & Hread & Hid & Hb & Hlist).
  - vm_compute. reflexivity.
  - reflexivity.
  - reflexivity.
  - reflexivity.
  - rewrite readTodos_disk in Hread. injection Hread as Hsplit.
    destruct (first_holder_unique "test-id-1" [] [JObj Fixture.todo2]
                before after Fixture.todo1 old)
      as (<- & <- & <-); [exact Hsplit|constructor|exact Hb|reflexivity|exact Hid|].
    exact Hlist.
Defined.


(** X16 on the fixtures: the two environments have the same clock reading
    and the same suffix. *)
Lemma generateId_injective_witness :
  Date_now Fixture.env = Date_now Fixture.quiet
  /\ random36 Fixture.env = random36 Fixture.quiet.
Proof.
  apply (generateId_injective Fixture.env Fixture.quiet).
  - left. reflexivity.
  - reflexivity.
Defined.


(** X18 on the fixture: "  Buy milk " typed into the form, on a store
    without a file. *)
Lemma add_form_is_never_rejected_witness :
  handleAddTodo (handle Fixture.env) "  Buy milk " (JArr []) Fixture.no_file
  = addTodo (handle Fixture.env) "Buy milk" (JArr []) Fixture.no_file
  /\ fst (handle Fixture.env (Create [("text", JStr "Buy milk")])
            Fixture.no_file)
     <> Ret (respond 400 (error_body "Todo text is required")).
Proof.
  destruct (add_form_is_never_rejected Fixture.env "  Buy milk " (JArr [])
              Fixture.no_file) as (Hform & Hserver).
  split; [exact (Hform (handle Fixture.env))|].
  destruct (Hserver eq_refl
              (fst (handle Fixture.env (Create [("text", JStr "Buy milk")])
                      Fixture.no_file))
              (snd (handle Fixture.env (Create [("text", JStr "Buy milk")])
                      Fixture.no_file)))
    as (Hno & _).
  - apply pair_eta.
  - exact Hno.
Defined.

(** X19 on the fixture: the first load of the page. *)
Lemma loadTodos_copies_the_store_witness :
  loadTodos (handle Fixture.env) false (JArr []) Fixture.disk
  = (collection [Fixture.todo1; Fixture.todo2], Fixture.disk).
Proof.
  apply (loadTodos_copies_the_store (handle Fixture.env) Fixture.env (JArr [])
           (collection [Fixture.todo1; Fixture.todo2]) Fixture.disk).
  - reflexivity.
  - apply readTodos_disk.
  - right. by eexists.
Defined.

(** X20 on the fixture: an Item added beside the two. *)
Lemma addTodo_keeps_the_copy_witness :
  let after := addTodo (handle Fixture.env) "Buy milk"
                 (collection [Fixture.todo1; Fixture.todo2]) Fixture.disk in
  readTodos (snd after) = (Ret (fst after), snd after).
Proof.
  apply (addTodo_keeps_the_copy (handle Fixture.env) Fixture.env "Buy milk"
           Fixture.disk (JObj <$> [Fixture.todo1; Fixture.todo2])).
  - reflexivity.
  - apply readTodos_disk.
  - reflexivity.
Defined.

(** X21 on the fixture: the first Item ticked. *)
Lemma updateTodo_keeps_the_copy_witness :
  let after := updateTodo (handle Fixture.env) "test-id-1"
                 [("completed", JBool true)]
                 (collection [Fixture.todo1; Fixture.todo2]) Fixture.disk in
  readTodos (snd after) = (Ret (fst after), snd after).
Proof.
  apply (updateTodo_keeps_the_copy (handle Fixture.env) Fixture.env "test-id-1"
           [("completed", JBool true)] Fixture.disk
           (JObj <$> [Fixture.todo1; Fixture.todo2])).
  - reflexivity.
  - apply readTodos_disk.
  - reflexivity.
  - reflexivity.
Defined.

(** X22 on the fixture: the first of the two Items deleted. *)
Lemma deleteTodo_keeps_the_copy_iff_witness :
  let after := deleteTodo (handle Fixture.env) "test-id-1"
                 (collection [Fixture.todo1; Fixture.todo2]) Fixture.disk in
  readTodos (snd after) = (Ret (fst after), snd after)
  <-> writable Fixture.disk = false
      \/ length (List.filter (holds "test-id-1")
                   [Fixture.todo1; Fixture.todo2]) <= 1.
Proof.
  apply (deleteTodo_keeps_the_copy_iff (handle Fixture.env) Fixture.env
           "test-id-1" Fixture.disk [Fixture.todo1; Fixture.todo2]).
  - reflexivity.
  - apply readTodos_disk.
  - reflexivity.
Defined.
